(** * Expense-report demo: receipt normalisation, draft staging and
      compliance-request assembly.

    A shallow embedding of [app.py].  Python values are dynamically typed,
    so every attribute and dictionary entry the program touches is a
    [pyval]; dictionaries that the program builds itself keep insertion
    order (they are printed with [str]); the field table of the analysis
    service is only ever read by key and is a [gmap]. *)

From Stdlib Require Import String Ascii ZArith List Bool Lia.
From Stdlib Require QArith.
From stdpp Require Import base option list gmap strings pretty.
Import ListNotations.

Open Scope string_scope.

(* ------------------------------------------------------------------ *)
(** ** Python values *)
(* ------------------------------------------------------------------ *)

(** [datetime.date] and [datetime.datetime]; [date_part] is the method
    [datetime.date()]. *)
Record date := mkdate { year : Z; month : Z; day : Z }.

Record datetime := mkdatetime {
  date_part : date;
  hour : Z; minute : Z; second : Z; microsecond : Z
}.

(** The values that reach the program: [None], [str], [float] (as the
    rational it denotes; the only float the program creates is [0.0]),
    [date], [datetime], and the structured address object of the analysis
    service, of which only the attribute [postal_code] is read. *)
Inductive pyval :=
| PNone
| PStr (s : string)
| PFloat (q : QArith_base.Q)
| PDate (d : date)
| PDateTime (dt : datetime)
| PAddress (postal_code : pyval).

(** Python truth value: [None], the empty string and zero are false,
    every other value of [pyval] is true. *)
Definition truthy (v : pyval) : bool :=
  match v with
  | PNone => false
  | PStr s => negb (String.eqb s "")
  | PFloat q => negb (QArith_base.Qeq_bool q (QArith_base.Qmake 0 1))
  | PDate _ | PDateTime _ | PAddress _ => true
  end.

Definition is_date (v : pyval) : bool :=
  match v with PDate _ => true | _ => false end.

(** Exceptions carry the text that [str(e)] gives.  [RerunException] is
    what [st.rerun()] raises to end the current run of the script. *)
Inductive exn :=
| AttributeError (msg : string)
| TypeError (msg : string)
| KeyError (msg : string)
| ValueError (msg : string)
| OtherError (msg : string)
| RerunException.

Definition exn_str (e : exn) : string :=
  match e with
  | AttributeError m | TypeError m | KeyError m | ValueError m
  | OtherError m => m
  | RerunException => ""
  end.

Inductive res (A : Type) :=
| Ok (a : A)
| Raise (e : exn).
Arguments Ok {A} a.
Arguments Raise {A} e.

Definition bind {A B} (m : res A) (k : A -> res B) : res B :=
  match m with
  | Ok a => k a
  | Raise e => Raise e
  end.

Notation "x <- m ;; k" := (bind m (fun x => k))
  (at level 100, m at next level, right associativity).

(** Library functions of the Python runtime that the program calls and
    whose text is not part of it.  [fromisoformat] answers [None] where
    [datetime.fromisoformat] raises. *)
Class Builtins := {
  fromisoformat : string -> option datetime;
  repr : pyval -> string;
  date_str : date -> string;
  datetime_str : datetime -> string;
  strip : string -> string
}.

(** [a + b]: concatenation on strings, addition on floats, [TypeError]
    on every other pair of [pyval]s. *)
Definition py_add (a b : pyval) : res pyval :=
  match a, b with
  | PStr x, PStr y => Ok (PStr (x ++ y))
  | PFloat x, PFloat y => Ok (PFloat (QArith_base.Qplus x y))
  | _, _ => Raise (TypeError "unsupported operand type(s) for +")
  end.

(** [v.postal_code]: only the address object has the attribute. *)
Definition get_postal_code (v : pyval) : res pyval :=
  match v with
  | PAddress pc => Ok pc
  | _ => Raise (AttributeError "object has no attribute 'postal_code'")
  end.

(* ------------------------------------------------------------------ *)
(** ** Dictionaries with string keys, in insertion order *)
(* ------------------------------------------------------------------ *)

Definition dict := list (string * pyval).

Fixpoint dict_get (k : string) (d : dict) : option pyval :=
  match d with
  | [] => None
  | (k', v) :: d' => if String.eqb k k' then Some v else dict_get k d'
  end.

(** [d[k] = v]: an existing key keeps its place, a new one goes last. *)
Fixpoint dict_set (k : string) (v : pyval) (d : dict) : dict :=
  match d with
  | [] => [(k, v)]
  | (k', v') :: d' =>
      if String.eqb k k' then (k', v) :: d' else (k', v') :: dict_set k v d'
  end.

(** [{k: v for k, v in d.items() if k != key}] *)
Definition dict_without (key : string) (d : dict) : dict :=
  List.filter (fun kv => negb (String.eqb (fst kv) key)) d.

(** [d.copy()] followed by [.pop(key, None)], giving the copy. *)
Definition dict_copy_pop (key : string) (d : dict) : dict :=
  dict_without key d.

Definition dict_keys (d : dict) : list string := List.map fst d.

(* ------------------------------------------------------------------ *)
(** ** The analysis result *)
(* ------------------------------------------------------------------ *)

Module DocumentField.
Record t := mk {
  value_string : pyval;
  content : pyval;
  value_country_region : pyval;
  value_address : pyval
}.
End DocumentField.

Module AnalyzedDocument.
Record t := mk { fields : gmap string DocumentField.t }.
End AnalyzedDocument.

Module AnalyzeResult.
Record t := mk {
  content : pyval;
  documents : list AnalyzedDocument.t
}.
End AnalyzeResult.

Section Program.
Context `{Builtins}.

Definition py_str (v : pyval) : string :=
  match v with
  | PStr s => s
  | PDate d => date_str d
  | PDateTime dt => datetime_str dt
  | _ => repr v
  end.

(** [to_date], the closure inside [parse_receipt].  The bare [except]
    turns every failure of the [try] block into the raw value. *)
Definition to_date (field_value : pyval) : pyval :=
  if negb (truthy field_value) then PNone
  else
    match field_value with
    | PDateTime dt => PDate (date_part dt)
    | PDate d => PDate d
    | _ =>
        match fromisoformat (py_str field_value) with
        | Some dt => PDate (date_part dt)
        | None => field_value
        end
    end.

(** [to_date(f.content if f else None) if f else None] *)
Definition field_date (f : option DocumentField.t) : pyval :=
  match f with
  | Some fld => to_date (DocumentField.content fld)
  | None => PNone
  end.

Definition parsed_data_defaults : dict :=
  [ ("merchant_name", PStr "");
    ("estimated_amount", PFloat (QArith_base.Qmake 0 1));
    ("zip_code", PStr "");
    ("check_in", PNone);
    ("check_out", PNone);
    ("logding_location", PStr "");
    ("receipt_file_content", PStr "") ].

(** The blocks of [parse_receipt], one for each field of the record, in
    the order of the source.  Each takes [fields] and the [parsed_data]
    built so far. *)

(** [# Get merchant name from MerchantName] *)
Definition fill_merchant_name
    (fields : gmap string DocumentField.t) (parsed_data : dict) : dict :=
  let merchant_field := fields !! "MerchantName" in
  match merchant_field with
  | Some f =>
      if truthy (DocumentField.value_string f)
      then dict_set "merchant_name" (DocumentField.value_string f) parsed_data
      else parsed_data
  | None => parsed_data
  end.

(** [# Get total amount from Total] *)
Definition fill_estimated_amount
    (fields : gmap string DocumentField.t) (parsed_data : dict) : dict :=
  let total_field := fields !! "Total" in
  match total_field with
  | Some f =>
      if truthy (DocumentField.content f)
      then dict_set "estimated_amount" (DocumentField.content f) parsed_data
      else parsed_data
  | None => parsed_data
  end.

(** [# Get lodging location from CountryRegion field] *)
Definition fill_lodging_location
    (fields : gmap string DocumentField.t) (parsed_data : dict) : res dict :=
  let country_region := fields !! "CountryRegion" in
  match country_region with
  | Some f =>
      let region := DocumentField.value_country_region f in
      let address := DocumentField.value_address f in
      if truthy region || truthy address then
        if truthy region && truthy address then
          loc <- py_add region address ;;
          Ok (dict_set "logding_location" loc parsed_data)
        else if truthy region then
          Ok (dict_set "logding_location" region parsed_data)
        else if truthy address then
          Ok (dict_set "logding_location" address parsed_data)
        else Ok parsed_data
      else Ok parsed_data
  | None => Ok parsed_data
  end.

(** [# Get zip code from MerchantAddress field] *)
Definition fill_zip_code
    (fields : gmap string DocumentField.t) (parsed_data : dict) : res dict :=
  let address_field := fields !! "MerchantAddress" in
  match address_field with
  | Some f =>
      pc <- get_postal_code (DocumentField.value_address f) ;;
      if truthy pc
      then Ok (dict_set "zip_code" pc parsed_data)
      else Ok parsed_data
  | None => Ok parsed_data
  end.

(** [# Extract dates: ArrivalDate, DepartureDate, TransactionDate] *)
Definition fill_dates
    (fields : gmap string DocumentField.t) (parsed_data : dict) : dict :=
  let arrival_field := fields !! "ArrivalDate" in
  let departure_field := fields !! "DepartureDate" in
  let transaction_field := fields !! "TransactionDate" in
  let arrival_date := field_date arrival_field in
  let departure_date := field_date departure_field in
  let transaction_date := field_date transaction_field in
  if truthy arrival_date && truthy departure_date then
    dict_set "check_out" departure_date
      (dict_set "check_in" arrival_date parsed_data)
  else if truthy transaction_date then
    dict_set "check_out" transaction_date
      (dict_set "check_in" transaction_date parsed_data)
  else parsed_data.

(** [parse_receipt] from the point where the analysis service has
    answered: [result] is [poller.result()]. *)
Definition parse_receipt (result : AnalyzeResult.t) : res dict :=
  let parsed_data := parsed_data_defaults in
  let parsed_data :=
    dict_set "receipt_file_content" (AnalyzeResult.content result) parsed_data in
  match AnalyzeResult.documents result with
  | [] => Ok parsed_data
  | doc :: _ =>
      let fields := AnalyzedDocument.fields doc in
      let parsed_data := fill_merchant_name fields parsed_data in
      let parsed_data := fill_estimated_amount fields parsed_data in
      parsed_data <- fill_lodging_location fields parsed_data ;;
      parsed_data <- fill_zip_code fields parsed_data ;;
      Ok (fill_dates fields parsed_data)
  end.

(* ------------------------------------------------------------------ *)
(** ** Reading the policy document *)
(* ------------------------------------------------------------------ *)

(** What [fitz] answers for the policy file: [fitz.open] raises, or gives
    the pages, each of which answers [get_text] with a text or raises. *)
Inductive pdf_source :=
| PdfUnreadable (e : exn)
| PdfPages (pages : list (res string)).

Definition newline : string := String (ascii_of_nat 10) "".

(** The loop [for page in doc: text += page.get_text("text") + "\n"]. *)
Fixpoint read_pages (text : string) (pages : list (res string)) : res string :=
  match pages with
  | [] => Ok text
  | page :: rest =>
      t <- page ;;
      read_pages (text ++ (t ++ newline)) rest
  end.

Definition extract_text_from_pdf (pdf : pdf_source) : string :=
  let attempt :=
    match pdf with
    | PdfUnreadable e => Raise e
    | PdfPages doc =>
        text <- read_pages "" doc ;;
        Ok (strip text)
    end in
  match attempt with
  | Ok text => text
  | Raise e => "Error: " ++ exn_str e
  end.

(* ------------------------------------------------------------------ *)
(** ** The session and one run of the script *)
(* ------------------------------------------------------------------ *)

(** [st.session_state]: each of the two entries is there or not. *)
Record session_state := mk_session {
  line_items : option (list dict);
  draft_fields : option dict
}.

Record message := mk_message { role : string; content : string }.

(** What a run shows to the user and sends out, in order. *)
Inductive effect :=
| ShowItem (idx : nat) (display_item : dict)
| ShowFinalJson (filtered_line_items : list dict)
| SendRequest (messages : list message).

Record world := mk_world { session : session_state; log : list effect }.

(** State and exceptions: the state reached when an exception is raised
    is kept, as the session outlives the run. *)
Definition M (A : Type) : Type := world -> res A * world.

Definition ret {A} (a : A) : M A := fun w => (Ok a, w).

Definition raise {A} (e : exn) : M A := fun w => (Raise e, w).

Definition mbind' {A B} (m : M A) (k : A -> M B) : M B :=
  fun w =>
    match m w with
    | (Ok a, w') => k a w'
    | (Raise e, w') => (Raise e, w')
    end.

Notation "x <~ m ;; k" := (mbind' m (fun x => k))
  (at level 100, m at next level, right associativity).
Notation "m ;;; k" := (mbind' m (fun _ => k))
  (at level 100, k at level 200, right associativity).

Definition lift {A} (r : res A) : M A := fun w => (r, w).

Definition get_session : M session_state := fun w => (Ok (session w), w).

Definition put_session (s : session_state) : M unit :=
  fun w => (Ok tt, mk_world s (log w)).

Definition emit (e : effect) : M unit :=
  fun w => (Ok tt, mk_world (session w) (log w ++ [e])).

(** [st.session_state.line_items] and [st.session_state.draft_fields] *)
Definition read_line_items : M (list dict) :=
  s <~ get_session ;;
  match line_items s with
  | Some l => ret l
  | None => raise (AttributeError "st.session_state has no attribute line_items")
  end.

Definition read_draft : M dict :=
  s <~ get_session ;;
  match draft_fields s with
  | Some d => ret d
  | None => raise (AttributeError "st.session_state has no attribute draft_fields")
  end.

Definition write_line_items (l : list dict) : M unit :=
  s <~ get_session ;;
  put_session (mk_session (Some l) (draft_fields s)).

Definition write_draft (d : dict) : M unit :=
  s <~ get_session ;;
  put_session (mk_session (line_items s) (Some d)).

(** [d[k]] *)
Definition dict_item (k : string) (d : dict) : res pyval :=
  match dict_get k d with
  | Some v => Ok v
  | None => Raise (KeyError k)
  end.

(** [st.session_state.draft_fields[k] = v] *)
Definition draft_assign (k : string) (v : pyval) : M unit :=
  d <~ read_draft ;;
  write_draft (dict_set k v d).

Definition expense_types : list string :=
  ["Hotel/Lodging"; "Airfare"; "Car Rental"; "Meals"; "Others"; "Ride Share"].

(** [options.index(v)] *)
Fixpoint list_index (v : pyval) (options : list string) : res nat :=
  match options with
  | [] => Raise (ValueError "is not in list")
  | o :: rest =>
      match v with
      | PStr s =>
          if String.eqb s o then Ok 0
          else (i <- list_index v rest ;; Ok (S i))
      | _ => i <- list_index v rest ;; Ok (S i)
      end
  end.

Definition empty_draft (today : date) : dict :=
  [ ("expense_name", PStr "");
    ("expense_type", PStr "Hotel/Lodging");
    ("cost_center", PStr "");
    ("merchant_name", PStr "");
    ("lodging_location", PStr "");
    ("check_in", PDate today);
    ("check_out", PDate today);
    ("zip_code", PStr "");
    ("estimated_amount", PFloat (QArith_base.Qmake 0 1));
    ("receipt_file", PStr "") ].

(** What the widgets of the form and the two buttons answer in a run,
    the day [date.today()] gives, and what the policy file reads as. *)
Record run_input := mk_input {
  today : date;
  expense_name : pyval;
  expense_type : pyval;
  cost_center : pyval;
  merchant_name : pyval;
  lodging_location : pyval;
  check_in : pyval;
  check_out : pyval;
  zip_code : pyval;
  estimated_amount : pyval;
  receipt_file : option AnalyzeResult.t;
  parse_button : bool;
  submitted : bool;
  submit_report : bool;
  policy_pdf : pdf_source
}.

(** [str] of a list of dictionaries: Python prints the items in order,
    each key and value with [repr]. *)
Definition join (sep : string) (l : list string) : string :=
  match l with
  | [] => ""
  | x :: rest => fold_left (fun acc y => acc ++ sep ++ y) rest x
  end.

Definition dict_repr (d : dict) : string :=
  "{" ++ join ", " (List.map (fun kv => repr (PStr (fst kv)) ++ ": " ++ repr (snd kv)) d) ++ "}".

Definition list_str (l : list dict) : string :=
  "[" ++ join ", " (List.map dict_repr l) ++ "]".

(** The loop over [enumerate(st.session_state.line_items)]. *)
Fixpoint show_items (idx : nat) (items : list dict) : M unit :=
  match items with
  | [] => ret tt
  | item :: rest =>
      let display_item := dict_copy_pop "receipt_file" item in
      emit (ShowItem idx display_item) ;;;
      show_items (S idx) rest
  end.

Definition new_item_of (inp : run_input) (receipt : pyval) : dict :=
  [ ("expense_name", expense_name inp);
    ("expense_type", expense_type inp);
    ("cost_center", cost_center inp);
    ("merchant_name", merchant_name inp);
    ("lodging_location", lodging_location inp);
    ("check_in", PStr (py_str (check_in inp)));
    ("check_out", PStr (py_str (check_out inp)));
    ("zip_code", zip_code inp);
    ("estimated_amount", estimated_amount inp);
    ("receipt_file", receipt) ].

Definition compliance_messages (pdf_text : string) (items : list dict) : list message :=
  [ mk_message "system"
      ("Given to you is the travel manual or all the policies related to submitting expense: " ++ pdf_text);
    mk_message "system"
      "You need to act as Policy violation checker, we will provide you with the line items of the expense, based on that you need to check and get back to with possible policy violations";
    mk_message "system"
      ("Along with policy violation you should get back to user with suggestions. Here are the line items: " ++ list_str items);
    mk_message "system"
      "Always respond back in json format with keys line_item_no, policy_violations (value should be None if no policy violation is there), suggestion (if any policy violations are there)" ].

(** The block under [if parse_button and receipt_file is not None]. *)
Definition parse_and_fill (r : AnalyzeResult.t) : M unit :=
  parsed_result <~ lift (parse_receipt r) ;;
  v <~ lift (dict_item "merchant_name" parsed_result) ;;
  draft_assign "merchant_name" v ;;;
  v <~ lift (dict_item "estimated_amount" parsed_result) ;;
  draft_assign "estimated_amount" v ;;;
  v <~ lift (dict_item "zip_code" parsed_result) ;;
  draft_assign "zip_code" v ;;;
  v <~ lift (dict_item "logding_location" parsed_result) ;;
  draft_assign "lodging_location" v ;;;
  ci <~ lift (dict_item "check_in" parsed_result) ;;
  (if truthy ci then draft_assign "check_in" ci else ret tt) ;;;
  co <~ lift (dict_item "check_out" parsed_result) ;;
  (if truthy co then draft_assign "check_out" co else ret tt) ;;;
  draft_assign "receipt_file"
    (default (PStr "") (dict_get "receipt_file_content" parsed_result)) ;;;
  raise RerunException.

(** The block under [if submitted]. *)
Definition add_line_item (inp : run_input) : M unit :=
  d <~ read_draft ;;
  receipt <~ lift (dict_item "receipt_file" d) ;;
  let new_item := new_item_of inp receipt in
  items <~ read_line_items ;;
  write_line_items (items ++ [new_item]) ;;;
  write_draft (empty_draft (today inp)).

(** The block under [if st.button("Submit Expense Report")], up to the
    call of the review service: the request is the last thing a run of
    the model does.  The answer of the service and its display are not
    part of the model. *)
Definition submit_expense_report (inp : run_input) : M unit :=
  items <~ read_line_items ;;
  let filtered_line_items := List.map (dict_without "receipt_file") items in
  emit (ShowFinalJson filtered_line_items) ;;;
  let pdf_text := extract_text_from_pdf (policy_pdf inp) in
  items <~ read_line_items ;;
  emit (SendRequest (compliance_messages pdf_text items)).

(** [if "line_items" not in st.session_state] and
    [if "draft_fields" not in st.session_state] *)
Definition init_session (inp : run_input) : M unit :=
  s <~ get_session ;;
  (match line_items s with
   | None => write_line_items []
   | Some _ => ret tt
   end) ;;;
  s <~ get_session ;;
  match draft_fields s with
  | None => write_draft (empty_draft (today inp))
  | Some _ => ret tt
  end.

(** [st.header("Current Line Items")] and what follows it. *)
Definition current_line_items : M unit :=
  items <~ read_line_items ;;
  show_items 0 items.

(** The widgets of the form read their initial values from the draft;
    what they answer is in the [run_input]. *)
Definition form_widgets : M unit :=
  d <~ read_draft ;;
  _ <~ lift (dict_item "expense_name" d) ;;
  et <~ lift (dict_item "expense_type" d) ;;
  _ <~ lift (list_index et expense_types) ;;
  _ <~ lift (dict_item "cost_center" d) ;;
  _ <~ lift (dict_item "merchant_name" d) ;;
  _ <~ lift (dict_item "lodging_location" d) ;;
  _ <~ lift (dict_item "check_in" d) ;;
  _ <~ lift (dict_item "check_out" d) ;;
  _ <~ lift (dict_item "zip_code" d) ;;
  _ <~ lift (dict_item "estimated_amount" d) ;;
  ret tt.

Definition main (inp : run_input) : M unit :=
  init_session inp ;;;
  current_line_items ;;;
  form_widgets ;;;
  (match parse_button inp, receipt_file inp with
   | true, Some r => parse_and_fill r
   | _, _ => ret tt
   end) ;;;
  (if submitted inp then add_line_item inp else ret tt) ;;;
  (if submit_report inp then submit_expense_report inp else ret tt).

(** A run starts with an empty log; the session it leaves is what the
    next run starts from. *)
Definition run (inp : run_input) (s : session_state) : res unit * world :=
  main inp (mk_world s []).

Definition session_after (inp : run_input) (s : session_state) : session_state :=
  session (snd (run inp s)).

Definition log_of (inp : run_input) (s : session_state) : list effect :=
  log (snd (run inp s)).

End Program.

(* ------------------------------------------------------------------ *)
(** ** The rest of the script: [safe_date], [login] and the gate *)
(* ------------------------------------------------------------------ *)

Section Script.
Context `{Builtins}.

(** [isinstance(val, date)] holds for a [datetime] too: [datetime] is a
    subclass of [date]. *)
Definition isinstance_date (v : pyval) : bool :=
  match v with PDate _ | PDateTime _ => true | _ => false end.

Definition isinstance_datetime (v : pyval) : bool :=
  match v with PDateTime _ => true | _ => false end.

Definition isinstance_str (v : pyval) : bool :=
  match v with PStr _ => true | _ => false end.

(** [safe_date], the closure defined in the parse block of [main].
    [today] is what [date.today()] gives. *)
Definition safe_date (today : date) (val : pyval) : pyval :=
  if isinstance_date val || isinstance_datetime val then
    if isinstance_date val then val
    else match val with
         | PDateTime dt => PDate (date_part dt)
         | _ => val
         end
  else if isinstance_str val then
    match fromisoformat (py_str val) with
    | Some dt => PDate (date_part dt)
    | None => PDate today
    end
  else PDate today.

(** [st.secrets["credentials"]] and what the widgets of the login form
    answer in a run. *)
Record credentials := mk_credentials {
  secret_username : string;
  secret_password : string
}.

Record login_form := mk_login_form {
  username : string;
  password : string;
  login_button : bool
}.

(** The whole session: the entry "authenticated", there or not, and the
    two entries [main] works on. *)
Record app_state := mk_app {
  authenticated : option bool;
  app_session : session_state
}.

(** How a run of the script ends: in [login] with the form only, with
    the error message, or with the rerun after a successful login (the
    first two followed by [st.stop()]), or in [main]. *)
Inductive script_end :=
| LoginForm
| LoginError
| LoginRerun
| MainEnd (r : res unit).

(** [login()]: the entry "authenticated" it leaves and how it ends. *)
Definition login (secrets : credentials) (form : login_form)
    (auth : option bool) : option bool * script_end :=
  if login_button form then
    if String.eqb (username form) (secret_username secrets)
       && String.eqb (password form) (secret_password secrets)
    then (Some true, LoginRerun)
    else (auth, LoginError)
  else (auth, LoginForm).

(** ["authenticated" not in st.session_state or not
    st.session_state["authenticated"]] *)
Definition not_authenticated (auth : option bool) : bool :=
  match auth with
  | None => true
  | Some b => negb b
  end.

(** One run of the whole script: the gate, then [main]. *)
Definition script (secrets : credentials) (form : login_form) (inp : run_input)
    (a : app_state) : app_state * script_end * list effect :=
  if not_authenticated (authenticated a) then
    let '(auth, e) := login secrets form (authenticated a) in
    (mk_app auth (app_session a), e, [])
  else
    let '(r, w) := run inp (app_session a) in
    (mk_app (authenticated a) (session w), MainEnd r, log w).

End Script.

(* ------------------------------------------------------------------ *)
(** ** Reference builtins for closed examples *)
(* ------------------------------------------------------------------ *)

(** A concrete runtime for the examples.  Its [fromisoformat] accepts the
    calendar-date form [YYYY-MM-DD] and nothing else; the examples only
    give it texts of that form or texts that are no ISO-8601 text at all,
    on which every version of [datetime.fromisoformat] agrees with it. *)
Module Reference.

Definition digit (c : ascii) : option Z :=
  let n := Z.of_nat (nat_of_ascii c) in
  if (48 <=? n)%Z && (n <=? 57)%Z then Some (n - 48)%Z else None.

Fixpoint number (acc : Z) (s : list ascii) : option Z :=
  match s with
  | [] => Some acc
  | c :: rest =>
      match digit c with
      | Some n => number (10 * acc + n)%Z rest
      | None => None
      end
  end.

Definition leap (y : Z) : bool :=
  ((y mod 4 =? 0) && negb (y mod 100 =? 0) || (y mod 400 =? 0))%Z.

Definition days_in_month (y m : Z) : Z :=
  if (m =? 2)%Z then (if leap y then 29 else 28)%Z
  else if ((m =? 4) || (m =? 6) || (m =? 9) || (m =? 11))%Z then 30%Z
  else 31%Z.

Definition calendar_date (s : string) : option datetime :=
  match list_ascii_of_string s with
  | [y1; y2; y3; y4; "-"%char; m1; m2; "-"%char; d1; d2] =>
      match number 0 [y1; y2; y3; y4], number 0 [m1; m2], number 0 [d1; d2] with
      | Some y, Some m, Some d =>
          if ((1 <=? y) && (1 <=? m) && (m <=? 12) && (1 <=? d)
              && (d <=? days_in_month y m))%Z
          then Some (mkdatetime (mkdate y m d) 0 0 0 0)
          else None
      | _, _, _ => None
      end
  | _ => None
  end.

Definition two_digits (n : Z) : string :=
  (if (n <? 10)%Z then "0" else "") ++ pretty n.

Definition four_digits (n : Z) : string :=
  (if (n <? 10)%Z then "000" else if (n <? 100)%Z then "00"
   else if (n <? 1000)%Z then "0" else "") ++ pretty n.

Definition isoformat (d : date) : string :=
  four_digits (year d) ++ "-" ++ two_digits (month d) ++ "-" ++ two_digits (day d).

Definition isoformat_datetime (dt : datetime) : string :=
  isoformat (date_part dt) ++ " " ++ two_digits (hour dt) ++ ":"
    ++ two_digits (minute dt) ++ ":" ++ two_digits (second dt).

Definition is_space (c : ascii) : bool :=
  let n := nat_of_ascii c in
  (Nat.eqb n 32) || ((Nat.leb 9 n) && (Nat.leb n 13))
  || ((Nat.leb 28 n) && (Nat.leb n 31)).

Fixpoint lstrip (s : list ascii) : list ascii :=
  match s with
  | c :: rest => if is_space c then lstrip rest else s
  | [] => []
  end.

Definition strip_spaces (s : string) : string :=
  string_of_list_ascii
    (rev (lstrip (rev (lstrip (list_ascii_of_string s))))).

(** [repr] of texts without quotes or escapes, of [None] and of dates. *)
Fixpoint simple_repr (v : pyval) : string :=
  match v with
  | PNone => "None"
  | PStr s => "'" ++ s ++ "'"
  | PFloat q =>
      pretty (QArith_base.Qnum q) ++ "/" ++ pretty (Z.pos (QArith_base.Qden q))
  | PDate d =>
      "datetime.date(" ++ pretty (year d) ++ ", " ++ pretty (month d) ++ ", "
        ++ pretty (day d) ++ ")"
  | PDateTime dt => "datetime.datetime(" ++ isoformat_datetime dt ++ ")"
  | PAddress pc => "AddressValue(postal_code=" ++ simple_repr pc ++ ")"
  end.

#[export] Instance builtins : Builtins := {|
  fromisoformat := calendar_date;
  repr := simple_repr;
  date_str := isoformat;
  datetime_str := isoformat_datetime;
  strip := strip_spaces
|}.

End Reference.

(* ------------------------------------------------------------------ *)
(** ** What the specification says, and the states the program reaches *)
(* ------------------------------------------------------------------ *)

Section Specification.
Context `{Builtins}.

(** The fields [parse_receipt] looks at: those of the first recognised
    document, none when there is no document. *)
Definition first_fields (r : AnalyzeResult.t) : gmap string DocumentField.t :=
  match AnalyzeResult.documents r with
  | [] => ∅
  | doc :: _ => AnalyzedDocument.fields doc
  end.

(** A candidate field is present and its content is not empty. *)
Definition present (f : option DocumentField.t) : bool :=
  match f with
  | Some fld => truthy (DocumentField.content fld)
  | None => false
  end.

(** The date decision with "usable" read as "present and not empty":
    the coerced value may then be a date or the raw unparsed content. *)
Definition decided_dates (r : AnalyzeResult.t) : pyval * pyval :=
  let arrival := first_fields r !! "ArrivalDate" in
  let departure := first_fields r !! "DepartureDate" in
  let transaction := first_fields r !! "TransactionDate" in
  if present arrival && present departure
  then (field_date arrival, field_date departure)
  else if present transaction
  then (field_date transaction, field_date transaction)
  else (PNone, PNone).

(** The date decision in the words of the specification, "usable date"
    read as "the coercion gave a date". *)
Definition dates_as_specified (r : AnalyzeResult.t) : pyval * pyval :=
  let arrival := field_date (first_fields r !! "ArrivalDate") in
  let departure := field_date (first_fields r !! "DepartureDate") in
  let transaction := field_date (first_fields r !! "TransactionDate") in
  if is_date arrival && is_date departure then (arrival, departure)
  else if is_date transaction then (transaction, transaction)
  else (PNone, PNone).

(** The coercion in the words of the specification: a date or datetime
    as it is, else the parsed date, else the raw value. *)
Definition to_date_as_specified (v : pyval) : pyval :=
  match v with
  | PDateTime dt => PDate (date_part dt)
  | PDate d => PDate d
  | _ =>
      match fromisoformat (py_str v) with
      | Some dt => PDate (date_part dt)
      | None => v
      end
  end.

(** The lodging location in the words of the specification, over an
    optional region code and an optional free-text address. *)
Definition lodging_location_spec (region address : option string) : string :=
  match region, address with
  | Some r, Some a => r ++ a
  | Some r, None => r
  | None, Some a => a
  | None, None => ""
  end.

Definition str_or_none (o : option string) : pyval :=
  match o with
  | Some s => PStr s
  | None => PNone
  end.

(** The first exception among the pages, and the texts of the pages. *)
Fixpoint first_raise (pages : list (res string)) : option exn :=
  match pages with
  | [] => None
  | Raise e :: _ => Some e
  | Ok _ :: rest => first_raise rest
  end.

Fixpoint page_texts (pages : list (res string)) : list string :=
  match pages with
  | [] => []
  | Ok t :: rest => t :: page_texts rest
  | Raise _ :: rest => page_texts rest
  end.

Definition concat_pages (texts : list string) : string :=
  fold_right (fun t acc => t ++ newline ++ acc) "" texts.

(** The keys of a normalised record. *)
Definition parsed_keys : list string := dict_keys parsed_data_defaults.

(** The store and the draft a run works on, after its initialisation. *)
Definition items_of (s : session_state) : list dict :=
  default [] (line_items s).

Definition draft_of (today : date) (s : session_state) : dict :=
  default (empty_draft today) (draft_fields s).

Definition draft_keys : list string :=
  [ "expense_name"; "expense_type"; "cost_center"; "merchant_name";
    "lodging_location"; "check_in"; "check_out"; "zip_code";
    "estimated_amount"; "receipt_file" ].

(** The draft has the ten keys of the source's literal and its expense
    type is one of the options of the select box. *)
Definition draft_ok (d : dict) : Prop :=
  dict_keys d = draft_keys /\
  exists t, dict_get "expense_type" d = Some (PStr t) /\ In t expense_types.

(** Every committed item carries the key of the raw receipt content. *)
Definition item_ok (item : dict) : Prop :=
  is_Some (dict_get "receipt_file" item).

Definition session_ok (s : session_state) : Prop :=
  Forall item_ok (items_of s) /\
  match draft_fields s with
  | Some d => draft_ok d
  | None => True
  end.

(** The sessions the program reaches: the fresh one, and the one any
    run leaves. *)
Inductive reachable : session_state -> Prop :=
| reachable_fresh : reachable (mk_session None None)
| reachable_run inp s : reachable s -> reachable (session_after inp s).

Definition run_all (inps : list run_input) (s : session_state) : session_state :=
  fold_left (fun s inp => session_after inp s) inps s.

(** The parse block does not run: the button was not pressed or no file
    was given. *)
Definition no_parse (inp : run_input) : Prop :=
  parse_button inp = false \/ receipt_file inp = None.

(** A run in which only "Add This Line Item" was pressed. *)
Definition commit_only (inp : run_input) : Prop :=
  submitted inp = true /\ no_parse inp.

(** A run in which only "Submit Expense Report" was pressed. *)
Definition submit_only (inp : run_input) : Prop :=
  submit_report inp = true /\ submitted inp = false /\ no_parse inp.

(** The items that consecutive commits add: the first takes the raw
    content the draft holds, the later ones that of a reset draft. *)
Definition committed_items (receipt : pyval) (inps : list run_input) : list dict :=
  match inps with
  | [] => []
  | inp :: rest =>
      new_item_of inp receipt :: List.map (fun i => new_item_of i (PStr "")) rest
  end.

(** What the list of current line items shows, item by item. *)
Fixpoint item_views (idx : nat) (items : list dict) : list effect :=
  match items with
  | [] => []
  | item :: rest =>
      ShowItem idx (dict_without "receipt_file" item) :: item_views (S idx) rest
  end.

(** The raw receipt content a draft holds. *)
Definition receipt_of (d : dict) : pyval :=
  default PNone (dict_get "receipt_file" d).

(** The session after the form, and what a submission shows and sends. *)
Definition after_form (inp : run_input) (items : list dict) (d : dict) : session_state :=
  if submitted inp
  then mk_session (Some (app items [new_item_of inp (receipt_of d)]))
         (Some (empty_draft (today inp)))
  else mk_session (Some items) (Some d).

Definition submission (inp : run_input) (items : list dict) : list effect :=
  if submit_report inp
  then [ ShowFinalJson (List.map (dict_without "receipt_file") items);
         SendRequest (compliance_messages (extract_text_from_pdf (policy_pdf inp)) items) ]
  else [].

Definition shown_items (e : effect) : list dict :=
  match e with
  | ShowItem _ display_item => [display_item]
  | ShowFinalJson filtered_line_items => filtered_line_items
  | SendRequest _ => []
  end.

End Specification.

(** Inputs of the closed examples. *)
Module Examples.

Definition date_field (text : string) : DocumentField.t :=
  DocumentField.mk PNone (PStr text) PNone PNone.

(** Arrival is no date, departure and transaction are. *)
Definition invalid_arrival : AnalyzeResult.t :=
  AnalyzeResult.mk (PStr "receipt text")
    [ AnalyzedDocument.mk
        (<["ArrivalDate" := date_field "garbage"]>
         (<["DepartureDate" := date_field "2024-05-03"]>
          (<["TransactionDate" := date_field "2024-05-02"]> ∅))) ].

(** A merchant-address field without an address value. *)
Definition address_without_value : AnalyzeResult.t :=
  AnalyzeResult.mk (PStr "receipt text")
    [ AnalyzedDocument.mk
        (<["MerchantAddress" := DocumentField.mk PNone (PStr "12 Main St") PNone PNone]> ∅) ].

(** The end-to-end scenario of the specification, with a region code
    and an address. *)
Definition hotel_x : AnalyzeResult.t :=
  AnalyzeResult.mk (PStr "Hotel X ... 250.00")
    [ AnalyzedDocument.mk
        (<["MerchantName" := DocumentField.mk (PStr "Hotel X") (PStr "Hotel X") PNone PNone]>
         (<["Total" := DocumentField.mk PNone (PStr "250.00") PNone PNone]>
          (<["CountryRegion" := DocumentField.mk PNone (PStr "US") (PStr "US") (PStr "12 Main St")]>
           (<["MerchantAddress" := DocumentField.mk PNone (PStr "NY 10001") PNone (PAddress (PStr "10001"))]>
            (<["ArrivalDate" := date_field "2024-05-01"]>
             (<["DepartureDate" := date_field "2024-05-03"]> ∅)))))) ].

Definition day1 : date := mkdate 2024 5 1.
Definition day2 : date := mkdate 2024 5 2.

Definition form (name : string) (today : date) : run_input :=
  mk_input today (PStr name) (PStr "Meals") (PStr "CC-1") (PStr "Cafe")
    (PStr "") (PStr "2024-05-01") (PStr "2024-05-01") (PStr "10001")
    (PStr "12.50") None false false false (PdfPages [Ok "Policy page"]).

Definition pressing_add (inp : run_input) : run_input :=
  mk_input (today inp) (expense_name inp) (expense_type inp) (cost_center inp)
    (merchant_name inp) (lodging_location inp) (check_in inp) (check_out inp)
    (zip_code inp) (estimated_amount inp) (receipt_file inp)
    false true false (policy_pdf inp).

Definition pressing_submit (inp : run_input) (pdf : pdf_source) : run_input :=
  mk_input (today inp) (expense_name inp) (expense_type inp) (cost_center inp)
    (merchant_name inp) (lodging_location inp) (check_in inp) (check_out inp)
    (zip_code inp) (estimated_amount inp) (receipt_file inp)
    false false true pdf.

Definition one_item_session : session_state :=
  mk_session
    (Some [ @new_item_of Reference.builtins (form "taxi" day1) (PStr "raw receipt") ])
    (Some (empty_draft day1)).

Definition fresh : session_state := mk_session None None.

Definition add_taxi : run_input := pressing_add (form "taxi" day1).
Definition add_lunch : run_input := pressing_add (form "lunch" day1).
Definition add_hotel : run_input := pressing_add (form "hotel" day2).

(** The policy file cannot be opened. *)
Definition unreadable : pdf_source :=
  PdfUnreadable (OtherError "no such file: TRAVEL PROCEDURES MANUAL 2024.pdf").

Definition submit_now : run_input := pressing_submit (form "" day2) unreadable.

End Examples.

(* ------------------------------------------------------------------ *)
(** ** Further statements about the normaliser and the runs *)
(* ------------------------------------------------------------------ *)

Section Coverage.
Context `{Builtins}.

(** The lodging block raises: both parts of the country/region field are
    there and cannot be added. *)
Definition lodging_fails (r : AnalyzeResult.t) : bool :=
  match first_fields r !! "CountryRegion" with
  | Some f =>
      truthy (DocumentField.value_country_region f)
      && truthy (DocumentField.value_address f)
      && match py_add (DocumentField.value_country_region f)
                 (DocumentField.value_address f) with
         | Ok _ => false
         | Raise _ => true
         end
  | None => false
  end.

(** The zip block raises: the merchant address is there and its address
    value is no address object. *)
Definition zip_fails (r : AnalyzeResult.t) : bool :=
  match first_fields r !! "MerchantAddress" with
  | Some f =>
      match DocumentField.value_address f with
      | PAddress _ => false
      | _ => true
      end
  | None => false
  end.

(** A value of the record, when it is there and true. *)
Definition true_value (o : option pyval) : bool :=
  match o with
  | Some v => truthy v
  | None => false
  end.

(** The draft [d'] is the draft [d] filled from the record. *)
Definition filled_from (parsed_result d d' : dict) : Prop :=
  dict_get "merchant_name" d' = dict_get "merchant_name" parsed_result /\
  dict_get "estimated_amount" d' = dict_get "estimated_amount" parsed_result /\
  dict_get "zip_code" d' = dict_get "zip_code" parsed_result /\
  dict_get "lodging_location" d' = dict_get "logding_location" parsed_result /\
  dict_get "receipt_file" d' = dict_get "receipt_file_content" parsed_result /\
  dict_get "check_in" d'
  = (if true_value (dict_get "check_in" parsed_result)
     then dict_get "check_in" parsed_result else dict_get "check_in" d) /\
  dict_get "check_out" d'
  = (if true_value (dict_get "check_out" parsed_result)
     then dict_get "check_out" parsed_result else dict_get "check_out" d).

(** The entries of the draft that only the reset writes. *)
Definition user_fields_kept (d d' : dict) : Prop :=
  dict_get "expense_name" d' = dict_get "expense_name" d /\
  dict_get "expense_type" d' = dict_get "expense_type" d /\
  dict_get "cost_center" d' = dict_get "cost_center" d.

(** The parse block runs on the result [r]. *)
Definition parses (inp : run_input) (r : AnalyzeResult.t) : Prop :=
  parse_button inp = true /\ receipt_file inp = Some r.

(** No button was pressed. *)
Definition idle (inp : run_input) : Prop :=
  no_parse inp /\ submitted inp = false /\ submit_report inp = false.

(** The draft holds the defaults of the entries the form never writes
    back. *)
Definition user_fields_default (d : dict) : Prop :=
  dict_get "expense_name" d = Some (PStr "") /\
  dict_get "expense_type" d = Some (PStr "Hotel/Lodging") /\
  dict_get "cost_center" d = Some (PStr "").

Definition is_login_end (e : script_end) : bool :=
  match e with
  | MainEnd _ => false
  | _ => true
  end.

Definition script_all (secrets : credentials)
    (steps : list (login_form * run_input)) (a : app_state) : app_state :=
  fold_left (fun a step => fst (fst (script secrets (fst step) (snd step) a)))
    steps a.

End Coverage.

Module MoreExamples.
Import Examples.

(** The analysis of a receipt without dates. *)
Definition no_dates : AnalyzeResult.t :=
  AnalyzeResult.mk (PStr "Cafe Y ... 9.00")
    [ AnalyzedDocument.mk
        (<["MerchantName" := DocumentField.mk (PStr "Cafe Y") (PStr "Cafe Y") PNone PNone]>
         (<["Total" := DocumentField.mk PNone (PStr "9.00") PNone PNone]> ∅)) ].

(** No recognised document. *)
Definition no_document : AnalyzeResult.t :=
  AnalyzeResult.mk (PStr "smudged text") [].

(** The country/region field with a region code and an address object. *)
Definition region_and_address_object : AnalyzeResult.t :=
  AnalyzeResult.mk (PStr "receipt text")
    [ AnalyzedDocument.mk
        (<["CountryRegion" := DocumentField.mk PNone (PStr "US") (PStr "US")
                                (PAddress (PStr "10001"))]> ∅) ].

Definition parsing (inp : run_input) (r : AnalyzeResult.t) : run_input :=
  mk_input (today inp) (expense_name inp) (expense_type inp) (cost_center inp)
    (merchant_name inp) (lodging_location inp) (check_in inp) (check_out inp)
    (zip_code inp) (estimated_amount inp) (Some r)
    true false false (policy_pdf inp).

Definition parse_hotel_x : run_input := parsing (form "" day1) hotel_x.
Definition parse_no_dates : run_input := parsing (form "" day2) no_dates.
Definition parse_broken : run_input := parsing (form "" day1) address_without_value.

Definition looking : run_input := form "" day2.

Definition secrets : credentials := mk_credentials "admin" "s3cret".
Definition good_login : login_form := mk_login_form "admin" "s3cret" true.
Definition bad_login : login_form := mk_login_form "admin" "guess" true.

Definition logged_out : app_state := mk_app None one_item_session.
Definition logged_in : app_state := mk_app (Some true) one_item_session.

(** The records the normaliser gives for two of the results. *)
Definition hotel_x_record : dict :=
  [ ("merchant_name", PStr "Hotel X"); ("estimated_amount", PStr "250.00");
    ("zip_code", PStr "10001"); ("check_in", PDate (mkdate 2024 5 1));
    ("check_out", PDate (mkdate 2024 5 3));
    ("logding_location", PStr "US12 Main St");
    ("receipt_file_content", PStr "Hotel X ... 250.00") ].

Definition no_dates_record : dict :=
  [ ("merchant_name", PStr "Cafe Y"); ("estimated_amount", PStr "9.00");
    ("zip_code", PStr ""); ("check_in", PNone); ("check_out", PNone);
    ("logding_location", PStr "");
    ("receipt_file_content", PStr "Cafe Y ... 9.00") ].

End MoreExamples.

(* ------------------------------------------------------------------ *)
(** ** Dictionaries: lookups after updates *)
(* ------------------------------------------------------------------ *)

Lemma dict_get_set (k k' : string) (v : pyval) (d : dict) :
  dict_get k (dict_set k' v d) =
  if String.eqb k k' then Some v else dict_get k d.
Proof.
  induction d as [|[k0 v0] d IH]; simpl.
  - destruct (String.eqb k k'); reflexivity.
  - destruct (String.eqb_spec k' k0) as [->|Hne]; simpl.
    + destruct (String.eqb k k0); reflexivity.
    + rewrite IH. destruct (String.eqb_spec k k0) as [->|Hne'].
      * destruct (String.eqb_spec k0 k'); [congruence|reflexivity].
      * reflexivity.
Qed.

Lemma dict_keys_set (k : string) (v : pyval) (d : dict) :
  In k (dict_keys d) -> dict_keys (dict_set k v d) = dict_keys d.
Proof.
  induction d as [|[k0 v0] d IH]; simpl; [tauto|].
  intros Hin. destruct (String.eqb_spec k k0) as [->|Hne]; simpl.
  - reflexivity.
  - f_equal. apply IH. destruct Hin; congruence.
Qed.

Lemma dict_get_without_same (key : string) (d : dict) :
  dict_get key (dict_without key d) = None.
Proof.
  induction d as [|[k0 v0] d IH]; simpl; [reflexivity|].
  destruct (String.eqb_spec k0 key) as [->|Hne]; simpl; [exact IH|].
  destruct (String.eqb_spec key k0); [congruence|exact IH].
Qed.

Lemma dict_get_without_other (k key : string) (d : dict) :
  k <> key -> dict_get k (dict_without key d) = dict_get k d.
Proof.
  intros Hk. induction d as [|[k0 v0] d IH]; simpl; [reflexivity|].
  destruct (String.eqb_spec k0 key) as [->|Hne]; simpl.
  - destruct (String.eqb_spec k key); [congruence|exact IH].
  - rewrite IH. reflexivity.
Qed.

Lemma bind_ok {A B} (m : res A) (k : A -> res B) (b : B) :
  bind m k = Ok b -> exists a, m = Ok a /\ k a = Ok b.
Proof. destruct m as [a|e]; simpl; [eauto|discriminate]. Qed.

(* ------------------------------------------------------------------ *)
(** ** The date coercion *)
(* ------------------------------------------------------------------ *)

Section Normalizer.
Context `{Builtins}.

Ltac dict_simpl := repeat (rewrite dict_get_set; simpl).

(** The coercion gives a true value exactly on a true raw value. *)
Lemma truthy_to_date (v : pyval) : truthy (to_date v) = truthy v.
Proof.
  unfold to_date. destruct (truthy v) eqn:Hv; simpl; [|reflexivity].
  destruct v; simpl in *; try reflexivity; try discriminate;
    destruct (fromisoformat _); simpl; auto.
Qed.

Lemma truthy_field_date (f : option DocumentField.t) :
  truthy (field_date f) = present f.
Proof. destruct f as [fld|]; simpl; [apply truthy_to_date|reflexivity]. Qed.

(** C7 (as amended): on every raw value that is not empty the coercion
    does what the specification says: a date stays, a datetime gives its
    date part, a text that parses gives the parsed date, and a value that
    does not parse comes back unchanged; on every empty or missing raw
    value it gives [None].  The coercion is a total function and raises
    nothing. *)
Theorem to_date_cases (v : pyval) :
  to_date v = (if truthy v then to_date_as_specified v else PNone)
  /\ (forall d, v = PDate d -> to_date v = PDate d)
  /\ (forall dt, v = PDateTime dt -> to_date v = PDate (date_part dt))
  /\ (forall dt, truthy v = true -> isinstance_date v = false ->
        fromisoformat (py_str v) = Some dt -> to_date v = PDate (date_part dt))
  /\ (truthy v = true -> isinstance_date v = false ->
        fromisoformat (py_str v) = None -> to_date v = v)
  /\ (truthy v = false -> to_date v = PNone).
Proof.
  unfold to_date, to_date_as_specified.
  split; [destruct (truthy v); reflexivity|].
  split; [intros d ->; reflexivity|].
  split; [intros dt ->; reflexivity|].
  split; [|split].
  - intros dt Hv Hnd Hp. rewrite Hv. simpl.
    destruct v; simpl in *; try discriminate; rewrite Hp; reflexivity.
  - intros Hv Hnd Hp. rewrite Hv. simpl.
    destruct v; simpl in *; try discriminate; try rewrite Hp; reflexivity.
  - intros ->. reflexivity.
Qed.

(* ------------------------------------------------------------------ *)
(** ** The normaliser, block by block *)
(* ------------------------------------------------------------------ *)

Lemma fill_merchant_name_get fields pd k :
  k <> "merchant_name" ->
  dict_get k (fill_merchant_name fields pd) = dict_get k pd.
Proof.
  intros Hk. unfold fill_merchant_name.
  repeat case_match; try reflexivity.
  rewrite dict_get_set. destruct (String.eqb_spec k "merchant_name"); congruence.
Qed.

Lemma fill_estimated_amount_get fields pd k :
  k <> "estimated_amount" ->
  dict_get k (fill_estimated_amount fields pd) = dict_get k pd.
Proof.
  intros Hk. unfold fill_estimated_amount.
  repeat case_match; try reflexivity.
  rewrite dict_get_set. destruct (String.eqb_spec k "estimated_amount"); congruence.
Qed.

Lemma fill_lodging_location_get fields pd pd' k :
  k <> "logding_location" ->
  fill_lodging_location fields pd = Ok pd' ->
  dict_get k pd' = dict_get k pd.
Proof.
  intros Hk. unfold fill_lodging_location.
  assert (Hset : forall v, dict_get k (dict_set "logding_location" v pd) = dict_get k pd).
  { intros v. rewrite dict_get_set.
    destruct (String.eqb_spec k "logding_location"); congruence. }
  destruct (fields !! "CountryRegion") as [f|]; simpl; [|intros [= <-]; reflexivity].
  destruct (truthy (DocumentField.value_country_region f)),
           (truthy (DocumentField.value_address f)); simpl.
  - intros Hr. apply bind_ok in Hr as (loc & _ & Hr). injection Hr as <-. auto.
  - intros [= <-]. auto.
  - intros [= <-]. auto.
  - intros [= <-]. reflexivity.
Qed.

Lemma fill_zip_code_get fields pd pd' k :
  k <> "zip_code" ->
  fill_zip_code fields pd = Ok pd' ->
  dict_get k pd' = dict_get k pd.
Proof.
  intros Hk. unfold fill_zip_code.
  assert (Hset : forall v, dict_get k (dict_set "zip_code" v pd) = dict_get k pd).
  { intros v. rewrite dict_get_set.
    destruct (String.eqb_spec k "zip_code"); congruence. }
  destruct (fields !! "MerchantAddress") as [f|]; simpl.
  - intros Hr. apply bind_ok in Hr as (pc & _ & Hr).
    destruct (truthy pc); injection Hr as <-; auto.
  - intros [= <-]. reflexivity.
Qed.

Lemma fill_dates_get fields pd k :
  k <> "check_in" -> k <> "check_out" ->
  dict_get k (fill_dates fields pd) = dict_get k pd.
Proof.
  intros Hin Hout. unfold fill_dates.
  repeat case_match; try reflexivity; rewrite !dict_get_set;
    destruct (String.eqb_spec k "check_out"); try congruence;
    destruct (String.eqb_spec k "check_in"); congruence.
Qed.

(** What the normaliser leaves under a key none of the fallible blocks
    writes: the value the infallible part of the pipeline gives. *)
Lemma parse_receipt_inv (r : AnalyzeResult.t) (d : dict) :
  parse_receipt r = Ok d ->
  exists pd2 pd3 pd4,
    let pd0 := dict_set "receipt_file_content" (AnalyzeResult.content r)
                 parsed_data_defaults in
    match AnalyzeResult.documents r with
    | [] => d = pd0
    | doc :: _ =>
        let fields := AnalyzedDocument.fields doc in
        pd2 = fill_estimated_amount fields (fill_merchant_name fields pd0) /\
        fill_lodging_location fields pd2 = Ok pd3 /\
        fill_zip_code fields pd3 = Ok pd4 /\
        d = fill_dates fields pd4
    end.
Proof.
  unfold parse_receipt. destruct (AnalyzeResult.documents r) as [|doc rest].
  - intros [= <-]. exists [], [], []. reflexivity.
  - cbv zeta. intros Hp.
    apply bind_ok in Hp as (pd3 & Hcr & Hp).
    apply bind_ok in Hp as (pd4 & Hzip & Hp).
    injection Hp as <-. eexists _, pd3, pd4. repeat split; eauto.
Qed.

(** The dates of the record, from the fields of the result. *)
Lemma parse_receipt_check_dates (r : AnalyzeResult.t) (d : dict) :
  parse_receipt r = Ok d ->
  dict_get "check_in" d = Some (fst (decided_dates r)) /\
  dict_get "check_out" d = Some (snd (decided_dates r)).
Proof.
  intros Hp. apply parse_receipt_inv in Hp as (pd2 & pd3 & pd4 & Hinv).
  unfold decided_dates, first_fields.
  destruct (AnalyzeResult.documents r) as [|doc rest]; cbv zeta in Hinv.
  - subst d. rewrite !lookup_empty. simpl. auto.
  - destruct Hinv as (-> & Hcr & Hzip & ->).
    assert (Hpd4 : dict_get "check_in" pd4 = Some PNone /\
                   dict_get "check_out" pd4 = Some PNone).
    { assert (Hkeep : forall k, k <> "logding_location" -> k <> "zip_code" ->
                dict_get k pd4
                = dict_get k (fill_estimated_amount (AnalyzedDocument.fields doc)
                                (fill_merchant_name (AnalyzedDocument.fields doc)
                                   (dict_set "receipt_file_content"
                                      (AnalyzeResult.content r) parsed_data_defaults)))).
      { intros k Hk1 Hk2.
        rewrite (fill_zip_code_get _ _ _ k Hk2 Hzip).
        apply (fill_lodging_location_get _ _ _ k Hk1 Hcr). }
      split; rewrite Hkeep by discriminate;
        rewrite fill_estimated_amount_get, fill_merchant_name_get by discriminate;
        reflexivity. }
    destruct Hpd4 as [Hin Hout]. unfold fill_dates. cbv zeta.
    rewrite !truthy_field_date.
    destruct (present (_ !! "ArrivalDate") && present (_ !! "DepartureDate")).
    + dict_simpl. auto.
    + destruct (present (_ !! "TransactionDate")); dict_simpl; auto.
Qed.

(** The decided dates are absent or true values. *)
Lemma decided_dates_absent_or_true (r : AnalyzeResult.t) :
  (fst (decided_dates r) = PNone \/ truthy (fst (decided_dates r)) = true) /\
  (snd (decided_dates r) = PNone \/ truthy (snd (decided_dates r)) = true).
Proof.
  unfold decided_dates. cbv zeta.
  destruct (present (first_fields r !! "ArrivalDate")) eqn:Ha,
           (present (first_fields r !! "DepartureDate")) eqn:Hd; simpl;
    try (destruct (present (first_fields r !! "TransactionDate")) eqn:Ht; simpl);
    rewrite ?truthy_field_date; auto.
Qed.

(** C9: an empty or missing raw value is coerced to [None] and its field
    counts as absent, so such a value, the empty text for one, never is the
    [check_in] or [check_out] of a normalised record; the raw value comes
    back from the coercion only when it is not empty and does not parse. *)
Theorem to_date_empty_is_absent (v : pyval) :
  truthy v = false ->
  to_date v = PNone /\
  (forall fld, DocumentField.content fld = v -> present (Some fld) = false) /\
  (forall r d, parse_receipt r = Ok d -> v <> PNone ->
     dict_get "check_in" d <> Some v /\ dict_get "check_out" d <> Some v) /\
  (forall w, to_date w = w -> is_date w = false -> w <> PNone ->
     truthy w = true /\ fromisoformat (py_str w) = None).
Proof.
  intros Hv. split; [|split; [|split]].
  - unfold to_date. rewrite Hv. reflexivity.
  - intros fld <-. exact Hv.
  - intros r d Hp Hnn. apply parse_receipt_check_dates in Hp as [-> ->].
    destruct (decided_dates_absent_or_true r) as [[Hi|Hi] [Ho|Ho]];
      split; intros [= Heq]; rewrite Heq in *; congruence.
  - intros w Hw Hnd Hnn. unfold to_date in Hw.
    destruct (truthy w) eqn:Htw; simpl in Hw; [|congruence].
    split; [reflexivity|].
    destruct w; simpl in *; try congruence;
      destruct (fromisoformat _); congruence.
Qed.

(** C1 (as amended): when the arrival and the departure field are both
    present with content that is not empty, [check_in] and [check_out] are
    their coerced values, whatever the transaction date; otherwise, when
    the transaction field is present with content that is not empty, both
    are its coerced value; otherwise both are absent.  A coerced value is a
    date, or the raw content where that does not parse. *)
Theorem parse_receipt_date_decision (r : AnalyzeResult.t) (d : dict) :
  parse_receipt r = Ok d ->
  (dict_get "check_in" d, dict_get "check_out" d)
  = (Some (fst (decided_dates r)), Some (snd (decided_dates r))).
Proof.
  intros Hp. apply parse_receipt_check_dates in Hp as [-> ->]. reflexivity.
Qed.

End Normalizer.

(* ------------------------------------------------------------------ *)
(** ** The normaliser on concrete results *)
(* ------------------------------------------------------------------ *)

Section NormalizerExamples.
Import Examples.
Existing Instance Reference.builtins.

(** C1, as stated, fails: the arrival field holds a text that is no date,
    the departure and the transaction field hold dates.  The specification
    takes the transaction date for both fields; the program takes the raw
    arrival text and the departure date. *)
Lemma invalid_arrival_not_as_specified :
  exists d,
    parse_receipt invalid_arrival = Ok d /\
    dict_get "check_in" d = Some (PStr "garbage") /\
    dict_get "check_out" d = Some (PDate (mkdate 2024 5 3)) /\
    dates_as_specified invalid_arrival
    = (PDate (mkdate 2024 5 2), PDate (mkdate 2024 5 2)) /\
    (dict_get "check_in" d, dict_get "check_out" d)
    <> (Some (fst (dates_as_specified invalid_arrival)),
        Some (snd (dates_as_specified invalid_arrival))).
Proof.
  eexists. split; [vm_compute; reflexivity|].
  repeat split; try (vm_compute; reflexivity).
  vm_compute. discriminate.
Qed.

Lemma parse_receipt_date_decision_witness :
  exists d,
    parse_receipt hotel_x = Ok d /\
    (dict_get "check_in" d, dict_get "check_out" d)
    = (Some (PDate (mkdate 2024 5 1)), Some (PDate (mkdate 2024 5 3))).
Proof.
  eexists. split; [vm_compute; reflexivity|].
  exact (parse_receipt_date_decision hotel_x _ eq_refl).
Defined.

(** C7, as stated, fails on the empty text: it does not parse, and the
    coercion gives [None], not the raw value. *)
Lemma to_date_empty_text_not_as_specified :
  fromisoformat "" = None /\
  to_date (PStr "") = PNone /\
  to_date_as_specified (PStr "") = PStr "" /\
  to_date (PStr "") <> to_date_as_specified (PStr "").
Proof. repeat split; try reflexivity. discriminate. Qed.

Lemma to_date_cases_witness :
  to_date (PStr "2024-05-01") = PDate (mkdate 2024 5 1)
  /\ to_date (PStr "garbage") = PStr "garbage"
  /\ to_date (PStr "") = PNone.
Proof.
  split; [|split].
  - exact (proj1 (to_date_cases (PStr "2024-05-01"))).
  - destruct (to_date_cases (PStr "garbage")) as (_ & _ & _ & _ & Hraw & _).
    exact (Hraw eq_refl eq_refl eq_refl).
  - destruct (to_date_cases (PStr "")) as (_ & _ & _ & _ & _ & Hnone).
    exact (Hnone eq_refl).
Defined.

Lemma to_date_empty_is_absent_witness :
  truthy (PStr "") = false /\ to_date (PStr "") = PNone.
Proof.
  split; [reflexivity|].
  exact (proj1 (to_date_empty_is_absent (PStr "") eq_refl)).
Defined.

End NormalizerExamples.

(* ------------------------------------------------------------------ *)
(** ** Lodging location and the failing address block *)
(* ------------------------------------------------------------------ *)

Section Lodging.
Context `{Builtins}.

Lemma truthy_str_or_none_empty (o : option string) :
  truthy (str_or_none o) = false -> o = None \/ o = Some "".
Proof.
  destruct o as [s|]; simpl; [|auto].
  destruct (String.eqb_spec s ""); [subst; auto|discriminate].
Qed.

Lemma append_empty_r (s : string) : s ++ "" = s.
Proof.
  induction s as [|c s IH]; [reflexivity|].
  change (String c (s ++ "") = String c s). f_equal. exact IH.
Qed.

Lemma string_app_assoc (a b c : string) : (a ++ b) ++ c = a ++ (b ++ c).
Proof.
  induction a as [|x a IH]; [reflexivity|].
  change (String x ((a ++ b) ++ c) = String x (a ++ (b ++ c))). f_equal. exact IH.
Qed.

(** The lodging block alone, on a field whose region code and address
    are texts or [None]. *)
Lemma fill_lodging_location_spec fields f pd pd' region address :
  fields !! "CountryRegion" = Some f ->
  DocumentField.value_country_region f = str_or_none region ->
  DocumentField.value_address f = str_or_none address ->
  dict_get "logding_location" pd = Some (PStr "") ->
  fill_lodging_location fields pd = Ok pd' ->
  dict_get "logding_location" pd'
  = Some (PStr (lodging_location_spec region address)).
Proof.
  intros Hf Hr Ha Hpd. unfold fill_lodging_location. rewrite Hf, Hr, Ha.
  cbv zeta.
  destruct (truthy (str_or_none region)) eqn:Htr,
           (truthy (str_or_none address)) eqn:Hta; simpl.
  - destruct region as [rc|], address as [ad|]; simpl in *; try discriminate.
    intros [= <-]. rewrite dict_get_set. reflexivity.
  - intros [= <-]. rewrite dict_get_set. simpl.
    destruct region as [rc|]; simpl in *; [|discriminate].
    apply truthy_str_or_none_empty in Hta as [->| ->]; simpl;
      [reflexivity|]. rewrite append_empty_r. reflexivity.
  - intros [= <-]. rewrite dict_get_set. simpl.
    destruct address as [ad|]; simpl in *; [|discriminate].
    apply truthy_str_or_none_empty in Htr as [->| ->]; reflexivity.
  - intros [= <-]. rewrite Hpd.
    apply truthy_str_or_none_empty in Htr as [->| ->];
      apply truthy_str_or_none_empty in Hta as [->| ->]; reflexivity.
Qed.

(** Whenever the normaliser returns a record and the region code and the
    address of the country/region field are each a text or [None], the
    lodging location of the record is the region code followed by the
    address when the field carries both, the one it carries when it
    carries one, and the empty text when it carries none or is absent. *)
Theorem lodging_location_resolution (r : AnalyzeResult.t) (d : dict) :
  parse_receipt r = Ok d ->
  match first_fields r !! "CountryRegion" with
  | None => dict_get "logding_location" d = Some (PStr "")
  | Some f =>
      forall region address,
        DocumentField.value_country_region f = str_or_none region ->
        DocumentField.value_address f = str_or_none address ->
        dict_get "logding_location" d
        = Some (PStr (lodging_location_spec region address))
  end.
Proof.
  intros Hp. apply parse_receipt_inv in Hp as (pd2 & pd3 & pd4 & Hinv).
  unfold first_fields.
  destruct (AnalyzeResult.documents r) as [|doc rest]; cbv zeta in Hinv.
  - subst d. rewrite lookup_empty. reflexivity.
  - destruct Hinv as (-> & Hcr & Hzip & ->).
    set (fields := AnalyzedDocument.fields doc) in *.
    assert (Hpd2 : dict_get "logding_location"
                     (fill_estimated_amount fields
                        (fill_merchant_name fields
                           (dict_set "receipt_file_content"
                              (AnalyzeResult.content r) parsed_data_defaults)))
                   = Some (PStr "")).
    { rewrite fill_estimated_amount_get, fill_merchant_name_get by discriminate.
      reflexivity. }
    assert (Hend : dict_get "logding_location" (fill_dates fields pd4)
                   = dict_get "logding_location" pd3).
    { rewrite fill_dates_get by discriminate.
      apply (fill_zip_code_get _ _ _ "logding_location" ltac:(discriminate) Hzip). }
    rewrite Hend.
    destruct (fields !! "CountryRegion") as [f|] eqn:Hf.
    + intros region address Hr Ha.
      eapply fill_lodging_location_spec; eauto.
    + unfold fill_lodging_location in Hcr. rewrite Hf in Hcr.
      injection Hcr as <-. exact Hpd2.
Qed.

(** C2, at the input on which the normaliser fails: a merchant-address
    field without an address value makes [parse_receipt] raise an
    [AttributeError] instead of giving a record. *)
Theorem parse_receipt_address_without_value_raises :
  parse_receipt Examples.address_without_value
  = Raise (AttributeError "object has no attribute 'postal_code'").
Proof. vm_compute. reflexivity. Qed.

(** C6, at the input on which the resolution fails: the country/region
    field carries a region code and an address, the address being the
    address object of the analysis service (the value the zip-code block
    reads [postal_code] from).  Adding the two raises a [TypeError]:
    [parse_receipt] gives no record, so no lodging location at all,
    instead of the region code followed by the address.  The same holds
    for every region code that is not empty and every address object. *)
Theorem lodging_location_region_and_address_object_raises :
  parse_receipt MoreExamples.region_and_address_object
  = Raise (TypeError "unsupported operand type(s) for +")
  /\ forall (content : pyval) (c : ascii) (region : string) (pc : pyval),
       parse_receipt
         (AnalyzeResult.mk content
            [ AnalyzedDocument.mk
                (<["CountryRegion" :=
                     DocumentField.mk PNone PNone (PStr (String c region)) (PAddress pc)]> ∅) ])
       = Raise (TypeError "unsupported operand type(s) for +").
Proof.
  split; [vm_compute; reflexivity|].
  intros content c region pc. vm_compute. reflexivity.
Qed.

(** The normaliser gives a record whenever the address value of the
    merchant address is there and the two parts of the country/region
    field can be added. *)
Lemma parse_receipt_returns (r : AnalyzeResult.t) :
  (forall f, first_fields r !! "MerchantAddress" = Some f ->
     exists pc, DocumentField.value_address f = PAddress pc) ->
  (forall f, first_fields r !! "CountryRegion" = Some f ->
     exists region address,
       DocumentField.value_country_region f = str_or_none region /\
       DocumentField.value_address f = str_or_none address) ->
  exists d, parse_receipt r = Ok d.
Proof.
  unfold parse_receipt, first_fields.
  destruct (AnalyzeResult.documents r) as [|doc rest]; [eauto|].
  cbv zeta. intros Haddr Hcr.
  set (pd2 := fill_estimated_amount _ _). clearbody pd2.
  assert (Hl : exists pd3, fill_lodging_location (AnalyzedDocument.fields doc) pd2 = Ok pd3).
  { unfold fill_lodging_location.
    destruct (AnalyzedDocument.fields doc !! "CountryRegion") as [f|]; [|eauto].
    destruct (Hcr f eq_refl) as (region & address & -> & ->).
    destruct region as [rc|], address as [ad|]; simpl;
      try destruct (negb (String.eqb rc "")); try destruct (negb (String.eqb ad ""));
      simpl; eauto. }
  destruct Hl as [pd3 ->]. simpl.
  assert (Hz : exists pd4, fill_zip_code (AnalyzedDocument.fields doc) pd3 = Ok pd4).
  { unfold fill_zip_code.
    destruct (AnalyzedDocument.fields doc !! "MerchantAddress") as [f|]; [|eauto].
    destruct (Haddr f eq_refl) as [pc ->]. simpl. destruct (truthy pc); eauto. }
  destruct Hz as [pd4 ->]. simpl. eauto.
Qed.

End Lodging.

Section LodgingExamples.
Import Examples.
Existing Instance Reference.builtins.

Lemma lodging_location_resolution_witness :
  exists d,
    parse_receipt hotel_x = Ok d /\
    dict_get "logding_location" d = Some (PStr "US12 Main St").
Proof.
  eexists. split; [vm_compute; reflexivity|].
  exact (lodging_location_resolution hotel_x _ eq_refl
           (Some "US") (Some "12 Main St") eq_refl eq_refl).
Defined.

End LodgingExamples.

(* ------------------------------------------------------------------ *)
(** ** One run of the script, block by block *)
(* ------------------------------------------------------------------ *)

Section Runs.
Context `{Builtins}.

Lemma mbind_ok {A B} (m : M A) (k : A -> M B) (w w' : world) (a : A) :
  m w = (Ok a, w') -> mbind' m k w = k a w'.
Proof. unfold mbind'. intros ->. reflexivity. Qed.

Lemma mbind_raise {A B} (m : M A) (k : A -> M B) (w w' : world) (e : exn) :
  m w = (Raise e, w') -> mbind' m k w = (Raise e, w').
Proof. unfold mbind'. intros ->. reflexivity. Qed.

Lemma show_items_run (items : list dict) :
  forall idx w,
    show_items idx items w
    = (Ok tt, mk_world (session w) (app (log w) (item_views idx items))).
Proof.
  induction items as [|item rest IH]; intros idx w; simpl.
  - unfold ret. rewrite app_nil_r. destruct w; reflexivity.
  - unfold mbind', emit. rewrite IH. simpl. rewrite <- app_assoc. reflexivity.
Qed.

Lemma init_session_run (inp : run_input) (w : world) :
  init_session inp w
  = (Ok tt,
     mk_world (mk_session (Some (items_of (session w)))
                 (Some (draft_of (today inp) (session w))))
       (log w)).
Proof.
  destruct w as [[[items|] [d|]] l]; reflexivity.
Qed.

Lemma current_line_items_run (items : list dict) (d : option dict) (l : list effect) :
  current_line_items (mk_world (mk_session (Some items) d) l)
  = (Ok tt, mk_world (mk_session (Some items) d) (app l (item_views 0 items))).
Proof.
  unfold current_line_items, read_line_items, mbind', get_session, ret. simpl.
  rewrite show_items_run. reflexivity.
Qed.

(** A draft with the ten keys is the literal of the source with some
    values. *)
Lemma draft_shape (d : dict) :
  dict_keys d = draft_keys ->
  exists v1 v2 v3 v4 v5 v6 v7 v8 v9 v10,
    d = [ ("expense_name", v1); ("expense_type", v2); ("cost_center", v3);
          ("merchant_name", v4); ("lodging_location", v5); ("check_in", v6);
          ("check_out", v7); ("zip_code", v8); ("estimated_amount", v9);
          ("receipt_file", v10) ].
Proof.
  unfold dict_keys, draft_keys. intros Hk.
  repeat (destruct d as [|[? ?] d]; simpl in Hk; [discriminate|];
          injection Hk as -> Hk).
  destruct d; [|discriminate]. repeat eexists.
Qed.

Lemma form_widgets_run (items : option (list dict)) (d : dict) (l : list effect) :
  draft_ok d ->
  form_widgets (mk_world (mk_session items (Some d)) l)
  = (Ok tt, mk_world (mk_session items (Some d)) l).
Proof.
  intros [Hkeys (t & Ht & Hin)].
  apply draft_shape in Hkeys as (v1 & v2 & v3 & v4 & v5 & v6 & v7 & v8 & v9 & v10 & ->).
  simpl in Ht. injection Ht as ->.
  simpl in Hin.
  destruct Hin as [<-|[<-|[<-|[<-|[<-|[<-|[]]]]]]]; reflexivity.
Qed.

Lemma add_line_item_run (inp : run_input) (items : list dict) (d : dict) (l : list effect) :
  draft_ok d ->
  add_line_item inp (mk_world (mk_session (Some items) (Some d)) l)
  = (Ok tt,
     mk_world (mk_session (Some (app items [new_item_of inp (receipt_of d)]))
                 (Some (empty_draft (today inp)))) l).
Proof.
  intros [Hkeys _].
  apply draft_shape in Hkeys as (v1 & v2 & v3 & v4 & v5 & v6 & v7 & v8 & v9 & v10 & ->).
  reflexivity.
Qed.

Lemma submit_expense_report_run (inp : run_input) (items : list dict)
    (d : option dict) (l : list effect) :
  submit_expense_report inp (mk_world (mk_session (Some items) d) l)
  = (Ok tt,
     mk_world (mk_session (Some items) d)
       (app l [ ShowFinalJson (List.map (dict_without "receipt_file") items);
                SendRequest (compliance_messages
                               (extract_text_from_pdf (policy_pdf inp)) items) ])).
Proof.
  unfold submit_expense_report, read_line_items, mbind', get_session, emit, ret.
  simpl. rewrite <- app_assoc. reflexivity.
Qed.

Lemma empty_draft_ok (today : date) : draft_ok (empty_draft today).
Proof.
  split; [reflexivity|]. exists "Hotel/Lodging". split; [reflexivity|].
  simpl. auto.
Qed.

(** A run in which the parse block does not run ends normally; the
    session it leaves and what it shows and sends are these. *)
Lemma run_no_parse (inp : run_input) (s : session_state) :
  draft_ok (draft_of (today inp) s) -> no_parse inp ->
  run inp s
  = (Ok tt,
     mk_world (after_form inp (items_of s) (draft_of (today inp) s))
       (app (item_views 0 (items_of s))
          (submission inp
             (items_of (after_form inp (items_of s) (draft_of (today inp) s)))))).
Proof.
  intros Hd Hnp. unfold run, main.
  erewrite mbind_ok by apply init_session_run. simpl.
  erewrite mbind_ok by apply current_line_items_run.
  erewrite mbind_ok by (apply form_widgets_run; exact Hd).
  assert (Hparse : (match parse_button inp, receipt_file inp with
                    | true, Some r => parse_and_fill r
                    | _, _ => ret tt
                    end) = ret tt).
  { destruct Hnp as [-> | ->]; [reflexivity|].
    destruct (parse_button inp); reflexivity. }
  rewrite Hparse. erewrite mbind_ok by reflexivity.
  unfold after_form, submission.
  destruct (submitted inp).
  - erewrite mbind_ok by (apply add_line_item_run; exact Hd).
    destruct (submit_report inp).
    + rewrite submit_expense_report_run. reflexivity.
    + unfold ret. simpl. rewrite app_nil_r. reflexivity.
  - erewrite mbind_ok by reflexivity.
    destruct (submit_report inp).
    + rewrite submit_expense_report_run. reflexivity.
    + unfold ret. simpl. rewrite app_nil_r. reflexivity.
Qed.

End Runs.

(* ------------------------------------------------------------------ *)
(** ** The run that parses a receipt, and the sessions reached *)
(* ------------------------------------------------------------------ *)

Section Reachable.
Context `{Builtins}.

Lemma dict_keys_set_in (k : string) (v : pyval) (d : dict) (keys : list string) :
  dict_keys d = keys -> In k keys -> dict_keys (dict_set k v d) = keys.
Proof. intros <- Hin. apply dict_keys_set. exact Hin. Qed.

Ltac keys_set := apply dict_keys_set_in; [assumption | simpl; tauto].

Lemma parse_receipt_keys (r : AnalyzeResult.t) (d : dict) :
  parse_receipt r = Ok d -> dict_keys d = parsed_keys.
Proof.
  intros Hp. apply parse_receipt_inv in Hp as (pd2 & pd3 & pd4 & Hinv).
  destruct (AnalyzeResult.documents r) as [|doc rest]; cbv zeta in Hinv.
  - subst d. reflexivity.
  - destruct Hinv as (-> & Hcr & Hzip & ->).
    set (fields := AnalyzedDocument.fields doc) in *.
    assert (H1 : dict_keys (fill_merchant_name fields
                   (dict_set "receipt_file_content" (AnalyzeResult.content r)
                      parsed_data_defaults)) = parsed_keys).
    { unfold fill_merchant_name. repeat case_match; reflexivity. }
    assert (H2 : dict_keys (fill_estimated_amount fields
                   (fill_merchant_name fields
                      (dict_set "receipt_file_content" (AnalyzeResult.content r)
                         parsed_data_defaults))) = parsed_keys).
    { unfold fill_estimated_amount. repeat case_match; try assumption. keys_set. }
    assert (H3 : dict_keys pd3 = parsed_keys).
    { revert Hcr. unfold fill_lodging_location.
      destruct (fields !! "CountryRegion") as [f|]; simpl; [|intros [= <-]; assumption].
      destruct (truthy (DocumentField.value_country_region f)),
               (truthy (DocumentField.value_address f)); simpl.
      - intros Hr. apply bind_ok in Hr as (loc & _ & Hr). injection Hr as <-. keys_set.
      - intros [= <-]. keys_set.
      - intros [= <-]. keys_set.
      - intros [= <-]. assumption. }
    assert (H4 : dict_keys pd4 = parsed_keys).
    { revert Hzip. unfold fill_zip_code.
      destruct (fields !! "MerchantAddress") as [f|]; simpl; [|intros [= <-]; assumption].
      intros Hr. apply bind_ok in Hr as (pc & _ & Hr).
      destruct (truthy pc); injection Hr as <-; [keys_set|assumption]. }
    unfold fill_dates. cbv zeta. repeat case_match; try assumption.
    + apply dict_keys_set_in; [|simpl; tauto]. keys_set.
    + apply dict_keys_set_in; [|simpl; tauto]. keys_set.
Qed.

Lemma parsed_shape (d : dict) :
  dict_keys d = parsed_keys ->
  exists v1 v2 v3 v4 v5 v6 v7,
    d = [ ("merchant_name", v1); ("estimated_amount", v2); ("zip_code", v3);
          ("check_in", v4); ("check_out", v5); ("logding_location", v6);
          ("receipt_file_content", v7) ].
Proof.
  unfold dict_keys, parsed_keys. simpl. intros Hk.
  repeat (destruct d as [|[? ?] d]; simpl in Hk; [discriminate|];
          injection Hk as -> Hk).
  destruct d; [|discriminate]. repeat eexists.
Qed.

(** The run of the parse block: it ends the run by an exception (that of
    the normaliser, or the rerun), shows nothing, leaves the store as it
    is and the draft with its ten keys and its expense type. *)
Lemma parse_and_fill_run (r : AnalyzeResult.t) (items : list dict) (d : dict)
    (l : list effect) :
  draft_ok d ->
  exists e d',
    parse_and_fill r (mk_world (mk_session (Some items) (Some d)) l)
    = (Raise e, mk_world (mk_session (Some items) (Some d')) l)
    /\ draft_ok d'.
Proof.
  intros Hd. unfold parse_and_fill.
  destruct (parse_receipt r) as [pr|e] eqn:Hp.
  - apply parse_receipt_keys, parsed_shape in Hp
      as (a1 & a2 & a3 & a4 & a5 & a6 & a7 & ->).
    destruct Hd as [Hkeys (t & Ht & Hin)].
    apply draft_shape in Hkeys
      as (v1 & v2 & v3 & v4 & v5 & v6 & v7 & v8 & v9 & v10 & ->).
    simpl in Ht. injection Ht as ->.
    exists RerunException.
    destruct (truthy a4) eqn:H4, (truthy a5) eqn:H5;
      eexists; (split;
        [ unfold mbind', lift, draft_assign, read_draft, write_draft, get_session,
            put_session, ret, raise; simpl; rewrite ?H4, ?H5; simpl; reflexivity
        | split; [reflexivity | exists t; split; [reflexivity | exact Hin]] ]).
  - exists e, d. split; [reflexivity | exact Hd].
Qed.

Lemma draft_of_ok (today : date) (s : session_state) :
  session_ok s -> draft_ok (draft_of today s).
Proof.
  intros [_ Hd]. unfold draft_of. destruct (draft_fields s); simpl;
    [exact Hd | apply empty_draft_ok].
Qed.

(** A run in which the parse block runs. *)
Lemma run_parse (inp : run_input) (s : session_state) (r : AnalyzeResult.t) :
  session_ok s -> parse_button inp = true -> receipt_file inp = Some r ->
  exists e d',
    run inp s
    = (Raise e,
       mk_world (mk_session (Some (items_of s)) (Some d'))
         (item_views 0 (items_of s)))
    /\ draft_ok d'.
Proof.
  intros Hs Hb Hf. pose proof (draft_of_ok (today inp) s Hs) as Hd.
  destruct (parse_and_fill_run r (items_of s) (draft_of (today inp) s)
              (item_views 0 (items_of s)) Hd) as (e & d' & Hrun & Hd').
  exists e, d'. split; [|exact Hd'].
  unfold run, main.
  erewrite mbind_ok by apply init_session_run. simpl.
  erewrite mbind_ok by apply current_line_items_run.
  erewrite mbind_ok by (apply form_widgets_run; exact Hd).
  rewrite Hb, Hf. simpl.
  erewrite mbind_raise by exact Hrun. reflexivity.
Qed.

Lemma new_item_ok (inp : run_input) (receipt : pyval) :
  item_ok (new_item_of inp receipt).
Proof. exists receipt. reflexivity. Qed.

(** Every run keeps the invariant of the session. *)
Lemma session_after_ok (inp : run_input) (s : session_state) :
  session_ok s -> session_ok (session_after inp s).
Proof.
  intros Hs. pose proof (draft_of_ok (today inp) s Hs) as Hd.
  unfold session_after.
  destruct (parse_button inp) eqn:Hb; [destruct (receipt_file inp) as [r|] eqn:Hf|].
  - destruct (run_parse inp s r Hs Hb Hf) as (e & d' & -> & Hd').
    split; [exact (proj1 Hs) | exact Hd'].
  - rewrite run_no_parse by (auto || (right; exact Hf)). simpl.
    unfold after_form. destruct (submitted inp); split; simpl; auto using empty_draft_ok.
    + apply Forall_app. split; [exact (proj1 Hs)|]. repeat constructor. apply new_item_ok.
    + exact (proj1 Hs).
  - rewrite run_no_parse by (auto || (left; exact Hb)). simpl.
    unfold after_form. destruct (submitted inp); split; simpl; auto using empty_draft_ok.
    + apply Forall_app. split; [exact (proj1 Hs)|]. repeat constructor. apply new_item_ok.
    + exact (proj1 Hs).
Qed.

Lemma reachable_ok (s : session_state) : reachable s -> session_ok s.
Proof.
  induction 1 as [|inp s _ IH].
  - split; simpl; [constructor | exact I].
  - apply session_after_ok. exact IH.
Qed.

End Reachable.

(* ------------------------------------------------------------------ *)
(** ** Committing, displaying and submitting *)
(* ------------------------------------------------------------------ *)

Section Session.
Context `{Builtins}.

(** One commit, from a session that satisfies the invariant. *)
Lemma commit_once (inp : run_input) (s : session_state) :
  session_ok s -> commit_only inp ->
  session_after inp s
  = mk_session
      (Some (app (items_of s)
               [new_item_of inp (receipt_of (draft_of (today inp) s))]))
      (Some (empty_draft (today inp))).
Proof.
  intros Hs [Hsub Hnp]. unfold session_after.
  rewrite run_no_parse by (auto using draft_of_ok). simpl.
  unfold after_form. rewrite Hsub. reflexivity.
Qed.

(** Commits after a reset draft. *)
Lemma commit_more (rest : list run_input) :
  forall items t,
    Forall commit_only rest ->
    Forall item_ok items ->
    run_all rest (mk_session (Some items) (Some (empty_draft t)))
    = mk_session
        (Some (app items (List.map (fun i => new_item_of i (PStr "")) rest)))
        (Some (empty_draft (List.last (List.map today rest) t))).
Proof.
  induction rest as [|inp rest IH]; intros items t Hall Hitems.
  - simpl. rewrite app_nil_r. reflexivity.
  - inversion Hall as [|? ? Hinp Hrest]; subst.
    change (run_all (inp :: rest) ?s) with (run_all rest (session_after inp s)).
    rewrite commit_once; [|split; [exact Hitems | apply empty_draft_ok] | exact Hinp].
    simpl items_of. simpl draft_of. change (receipt_of (empty_draft t)) with (PStr "").
    rewrite IH; [|exact Hrest|].
    + rewrite <- app_assoc. simpl app.
      replace (List.last (List.map today (inp :: rest)) t)
        with (List.last (List.map today rest) (today inp)); [reflexivity|].
      simpl. destruct (List.map today rest) as [|x xs]; [reflexivity|].
      clear. revert x. induction xs as [|y ys IHy]; intros x; [reflexivity|].
      simpl in *. apply IHy.
    + apply Forall_app. split; [exact Hitems|]. repeat constructor. apply new_item_ok.
Qed.

(** C4: from every session and for every set of form values, a commit
    appends exactly one item to the store: the nine values of the form
    under their keys, the two dates as texts, and the raw receipt content
    the draft holds; and it resets the draft to its defaults: empty
    texts, the type "Hotel/Lodging", the date of that day for both
    dates, the amount zero and empty raw content.  Over any number of
    consecutive commits the store grows by one such item each, in the
    order of the commits, and every item after the first carries the
    empty raw content of the reset draft: nothing of an earlier draft
    reaches a later item. *)
Theorem commit_cycles (s : session_state) (inp : run_input) (rest : list run_input) :
  session_ok s -> commit_only inp -> Forall commit_only rest ->
  let item (i : run_input) (raw_content : pyval) : dict :=
    [ ("expense_name", expense_name i);
      ("expense_type", expense_type i);
      ("cost_center", cost_center i);
      ("merchant_name", merchant_name i);
      ("lodging_location", lodging_location i);
      ("check_in", PStr (py_str (check_in i)));
      ("check_out", PStr (py_str (check_out i)));
      ("zip_code", zip_code i);
      ("estimated_amount", estimated_amount i);
      ("receipt_file", raw_content) ] in
  let defaults (t : date) : dict :=
    [ ("expense_name", PStr "");
      ("expense_type", PStr "Hotel/Lodging");
      ("cost_center", PStr "");
      ("merchant_name", PStr "");
      ("lodging_location", PStr "");
      ("check_in", PDate t);
      ("check_out", PDate t);
      ("zip_code", PStr "");
      ("estimated_amount", PFloat (QArith_base.Qmake 0 1));
      ("receipt_file", PStr "") ] in
  let stored : list dict :=
    match line_items s with Some items => items | None => [] end in
  let raw_content : pyval :=
    match draft_fields s with
    | Some d => match dict_get "receipt_file" d with Some v => v | None => PNone end
    | None => PStr ""
    end in
  session_after inp s
  = mk_session (Some (app stored [item inp raw_content]))
      (Some (defaults (today inp)))
  /\ run_all (inp :: rest) s
     = mk_session
         (Some (app stored
                  (item inp raw_content
                   :: List.map (fun i => item i (PStr "")) rest)))
         (Some (defaults (List.last (List.map today rest) (today inp))))
  /\ length (items_of (run_all (inp :: rest) s))
     = length (items_of s) + S (length rest).
Proof.
  intros Hs Hinp Hrest. cbv zeta.
  assert (Hraw : receipt_of (draft_of (today inp) s)
                 = match draft_fields s with
                   | Some d => match dict_get "receipt_file" d with
                               | Some v => v
                               | None => PNone
                               end
                   | None => PStr ""
                   end).
  { unfold receipt_of, draft_of. destruct (draft_fields s) as [d|]; reflexivity. }
  assert (Hstored : items_of s
                    = match line_items s with Some items => items | None => [] end).
  { unfold items_of. destruct (line_items s); reflexivity. }
  change (run_all (inp :: rest) s) with (run_all rest (session_after inp s)).
  rewrite commit_once by assumption.
  rewrite commit_more; [|exact Hrest|].
  - rewrite <- Hraw, <- Hstored.
    split; [reflexivity|]. split.
    + rewrite <- app_assoc. reflexivity.
    + unfold items_of at 1. simpl default.
      rewrite <- app_assoc, length_app. simpl. rewrite length_map. lia.
  - apply Forall_app. split; [exact (proj1 Hs)|]. repeat constructor. apply new_item_ok.
Qed.

End Session.

Section Submission.
Context `{Builtins}.

Lemma in_item_views (e : effect) (items : list dict) :
  forall idx,
    In e (item_views idx items) ->
    exists i item, e = ShowItem i (dict_without "receipt_file" item) /\ In item items.
Proof.
  induction items as [|item rest IH]; intros idx Hin; simpl in Hin; [tauto|].
  destruct Hin as [<-|Hin].
  - exists idx, item. simpl. auto.
  - destruct (IH _ Hin) as (i & it & -> & Hit). exists i, it. simpl. auto.
Qed.

(** What any run shows and sends, from a session with the invariant:
    the current items, and after them the final view and the request
    when the report was submitted in a run that did not parse. *)
Lemma log_of_cases (inp : run_input) (s : session_state) :
  session_ok s ->
  log_of inp s
  = app (item_views 0 (items_of s))
      (if (parse_button inp && bool_decide (is_Some (receipt_file inp)))%bool
       then []
       else submission inp (items_of (session_after inp s))).
Proof.
  intros Hs. unfold log_of, session_after.
  destruct (parse_button inp) eqn:Hb; [destruct (receipt_file inp) as [r|] eqn:Hf|].
  - destruct (run_parse inp s r Hs Hb Hf) as (e & d' & -> & _).
    simpl. rewrite app_nil_r. reflexivity.
  - rewrite run_no_parse by (auto using draft_of_ok || (right; exact Hf)). reflexivity.
  - rewrite run_no_parse by (auto using draft_of_ok || (left; exact Hb)). reflexivity.
Qed.

(** Every text that is joined occurs in the joined text. *)
Lemma fold_join_prefix (sep : string) (rest : list string) :
  forall acc, exists post,
    fold_left (fun acc y => acc ++ sep ++ y) rest acc = acc ++ post.
Proof.
  induction rest as [|y rest IH]; intros acc; simpl.
  - exists "". symmetry. apply append_empty_r.
  - destruct (IH (acc ++ sep ++ y)) as (post & ->).
    exists ((sep ++ y) ++ post). apply string_app_assoc.
Qed.

Lemma fold_join_in (sep x : string) (rest : list string) :
  In x rest ->
  forall acc, exists pre post,
    fold_left (fun acc y => acc ++ sep ++ y) rest acc = pre ++ x ++ post.
Proof.
  induction rest as [|y rest IH]; intros Hin acc; simpl in *; [destruct Hin|].
  destruct Hin as [->|Hin].
  - destruct (fold_join_prefix sep rest (acc ++ sep ++ x)) as (post & ->).
    exists (acc ++ sep), post. rewrite !string_app_assoc. reflexivity.
  - apply IH. exact Hin.
Qed.

Lemma join_in (sep x : string) (l : list string) :
  In x l -> exists pre post, join sep l = pre ++ x ++ post.
Proof.
  destruct l as [|x0 rest]; intros Hin; simpl in *; [destruct Hin|].
  destruct Hin as [->|Hin].
  - destruct (fold_join_prefix sep rest x) as (post & ->). exists "", post. reflexivity.
  - apply fold_join_in. exact Hin.
Qed.

Lemma dict_get_in (k : string) (v : pyval) (d : dict) :
  dict_get k d = Some v -> In (k, v) d.
Proof.
  induction d as [|[k' v'] d IH]; simpl; [discriminate|].
  destruct (String.eqb_spec k k') as [->|Hne].
  - intros [= ->]. left. reflexivity.
  - intros Hget. right. apply IH. exact Hget.
Qed.

(** C5: whatever a run shows to the user, the items of the list and the
    final view at submission, has no raw receipt content in any item.
    A run that submits the report (and does not parse) ends its output
    with the request; the third segment of the request is the fixed
    instruction followed by the whole store as Python prints it: the
    items in order between brackets, each item its entries in order
    between braces, each entry the [repr] of the key, a colon and the
    [repr] of the value; every item of the store has its raw receipt
    content, and the entry of that content occurs in the segment. *)
Theorem raw_content_hidden_from_views (inp : run_input) (s : session_state) :
  reachable s ->
  (forall e item,
     In e (log_of inp s) -> In item (shown_items e) ->
     dict_get "receipt_file" item = None)
  /\
  (no_parse inp -> submit_report inp = true ->
   let items := match line_items (session_after inp s) with
                | Some items => items
                | None => []
                end in
   let entry (kv : string * pyval) : string :=
     repr (PStr (fst kv)) ++ ": " ++ repr (snd kv) in
   let item_text (item : dict) : string :=
     "{" ++ join ", " (List.map entry item) ++ "}" in
   let payload : string :=
     "Along with policy violation you should get back to user with suggestions. Here are the line items: "
       ++ "[" ++ join ", " (List.map item_text items) ++ "]" in
   exists shown messages,
     log_of inp s = app shown [SendRequest messages]
     /\ List.nth_error messages 2 = Some (mk_message "system" payload)
     /\ forall item, In item items ->
          exists raw_content pre post,
            dict_get "receipt_file" item = Some raw_content
            /\ payload = pre ++ entry ("receipt_file", raw_content) ++ post).
Proof.
  intros Hr. pose proof (reachable_ok s Hr) as Hs.
  pose proof (session_after_ok inp s Hs) as Hs'.
  rewrite log_of_cases by exact Hs. split.
  - intros e item He Hitem. apply in_app_or in He as [He|He].
    + apply in_item_views in He as (i & it & -> & _).
      simpl in Hitem. destruct Hitem as [<-|[]]. apply dict_get_without_same.
    + destruct (parse_button inp && _)%bool; [destruct He|].
      unfold submission in He. destruct (submit_report inp); [|destruct He].
      destruct He as [<-|[<-|[]]]; simpl in Hitem; [|destruct Hitem].
      apply in_map_iff in Hitem as (it & <- & _). apply dict_get_without_same.
  - intros Hnp Hsub. cbv zeta.
    assert (Hb : (parse_button inp && bool_decide (is_Some (receipt_file inp)))%bool
                 = false).
    { destruct Hnp as [->| ->]; [reflexivity|].
      rewrite andb_false_r. reflexivity. }
    rewrite Hb. unfold submission. rewrite Hsub.
    eexists (app (item_views 0 (items_of s)) [_]), _.
    split; [rewrite <- app_assoc; reflexivity|].
    split; [reflexivity|].
    intros item Hin.
    assert (Hitem : item_ok item).
    { destruct Hs' as [Hall _]. rewrite List.Forall_forall in Hall. apply Hall.
      unfold items_of. destruct (line_items (session_after inp s)); exact Hin. }
    destruct Hitem as [raw Hraw]. exists raw.
    pose proof (dict_get_in _ _ _ Hraw) as Hkv.
    apply (in_map (fun kv => repr (PStr (fst kv)) ++ ": " ++ repr (snd kv))) in Hkv.
    apply (join_in ", ") in Hkv as (p2 & q2 & Hentry).
    apply (in_map (fun item : dict =>
                     "{" ++ join ", "
                       (List.map (fun kv => repr (PStr (fst kv)) ++ ": " ++ repr (snd kv))
                          item) ++ "}")) in Hin.
    apply (join_in ", ") in Hin as (p1 & q1 & Htext).
    exists ("Along with policy violation you should get back to user with suggestions. Here are the line items: "
              ++ "[" ++ p1 ++ "{" ++ p2),
           (q2 ++ "}" ++ q1 ++ "]").
    split; [exact Hraw|].
    rewrite Htext, Hentry. rewrite !string_app_assoc. reflexivity.
Qed.

(** C10: a submission ends normally and leaves the session as it was,
    store and draft; a second submission then shows and sends the same
    line items. *)
Theorem submit_leaves_session (inp inp2 : run_input) (s : session_state)
    (items : list dict) (d : dict) :
  session_ok s ->
  line_items s = Some items -> draft_fields s = Some d ->
  submit_only inp -> submit_only inp2 ->
  fst (run inp s) = Ok tt
  /\ session_after inp s = s
  /\ log_of inp s
     = app (item_views 0 items)
         [ ShowFinalJson (List.map (dict_without "receipt_file") items);
           SendRequest (compliance_messages
                          (extract_text_from_pdf (policy_pdf inp)) items) ]
  /\ log_of inp2 (session_after inp s)
     = app (item_views 0 items)
         [ ShowFinalJson (List.map (dict_without "receipt_file") items);
           SendRequest (compliance_messages
                          (extract_text_from_pdf (policy_pdf inp2)) items) ].
Proof.
  intros Hs Hitems Hdraft (Hsub & Hadd & Hnp) (Hsub2 & Hadd2 & Hnp2).
  assert (Hrun : forall i, submit_report i = true -> submitted i = false ->
                   no_parse i ->
                   run i s
                   = (Ok tt,
                      mk_world s
                        (app (item_views 0 items)
                           [ ShowFinalJson (List.map (dict_without "receipt_file") items);
                             SendRequest (compliance_messages
                                            (extract_text_from_pdf (policy_pdf i)) items) ]))).
  { intros i Hi1 Hi2 Hi3.
    rewrite run_no_parse by (auto using draft_of_ok).
    unfold after_form, submission, items_of, draft_of.
    rewrite Hi1, Hi2, Hitems, Hdraft. simpl. destruct s; simpl in *; subst. reflexivity. }
  assert (Hafter : session_after inp s = s).
  { unfold session_after. rewrite Hrun by assumption. reflexivity. }
  repeat split.
  - rewrite Hrun by assumption. reflexivity.
  - exact Hafter.
  - unfold log_of. rewrite Hrun by assumption. reflexivity.
  - rewrite Hafter. unfold log_of. rewrite Hrun by assumption. reflexivity.
Qed.

(** C3 (as amended): the request has exactly four segments, all with
    the role "system", in this order: the policy text behind its framing;
    the role instruction; the instruction to suggest remedies and, in the
    same segment, the serialised list of all line items; and the
    instruction on the format of the answer with the three keys. *)
Theorem compliance_request_segments (inp : run_input) (s : session_state) :
  session_ok s -> no_parse inp -> submit_report inp = true ->
  exists shown,
    log_of inp s
    = app shown
        [ SendRequest
            [ mk_message "system"
                ("Given to you is the travel manual or all the policies related to submitting expense: "
                 ++ extract_text_from_pdf (policy_pdf inp));
              mk_message "system"
                "You need to act as Policy violation checker, we will provide you with the line items of the expense, based on that you need to check and get back to with possible policy violations";
              mk_message "system"
                ("Along with policy violation you should get back to user with suggestions. Here are the line items: "
                 ++ list_str (items_of (session_after inp s)));
              mk_message "system"
                "Always respond back in json format with keys line_item_no, policy_violations (value should be None if no policy violation is there), suggestion (if any policy violations are there)" ] ].
Proof.
  intros Hs Hnp Hsub. unfold log_of, session_after.
  rewrite run_no_parse by (auto using draft_of_ok). simpl.
  unfold submission. rewrite Hsub.
  eexists (app (item_views 0 (items_of s)) [_]).
  rewrite <- app_assoc. reflexivity.
Qed.

Lemma read_pages_spec (pages : list (res string)) :
  forall text,
    read_pages text pages
    = match first_raise pages with
      | Some e => Raise e
      | None => Ok (text ++ concat_pages (page_texts pages))
      end.
Proof.
  induction pages as [|[t|e] rest IH]; intros text; simpl.
  - rewrite append_empty_r. reflexivity.
  - rewrite IH. destruct (first_raise rest); [reflexivity|].
    rewrite !string_app_assoc. reflexivity.
  - reflexivity.
Qed.

(** C8: when the policy document cannot be opened, or a page cannot be
    read, the reader gives the text "Error: " followed by the text of the
    exception and raises nothing; when every page is read it gives the
    texts of the pages, each followed by a line break, stripped at both
    ends.  Either way the text goes into the first segment of the request
    behind the framing of the policy. *)
Theorem policy_text_or_error (inp : run_input) (s : session_state) :
  session_ok s -> no_parse inp -> submit_report inp = true ->
  extract_text_from_pdf (policy_pdf inp)
  = match policy_pdf inp with
    | PdfUnreadable e => "Error: " ++ exn_str e
    | PdfPages pages =>
        match first_raise pages with
        | Some e => "Error: " ++ exn_str e
        | None => strip (concat_pages (page_texts pages))
        end
    end
  /\ exists shown rest,
       log_of inp s
       = app shown
           [ SendRequest
               (mk_message "system"
                  ("Given to you is the travel manual or all the policies related to submitting expense: "
                   ++ extract_text_from_pdf (policy_pdf inp)) :: rest) ].
Proof.
  intros Hs Hnp Hsub. split.
  - unfold extract_text_from_pdf. destruct (policy_pdf inp) as [e|pages]; [reflexivity|].
    simpl. rewrite read_pages_spec. destruct (first_raise pages); reflexivity.
  - unfold log_of, session_after.
    rewrite run_no_parse by (auto using draft_of_ok). simpl.
    unfold submission. rewrite Hsub.
    eexists (app (item_views 0 (items_of s)) [_]), _.
    rewrite <- app_assoc. reflexivity.
Qed.

End Submission.

(* ------------------------------------------------------------------ *)
(** ** The session on concrete runs *)
(* ------------------------------------------------------------------ *)

Section SessionExamples.
Import Examples.
Existing Instance Reference.builtins.

Lemma fresh_ok : session_ok fresh.
Proof. split; [constructor | exact I]. Qed.

Lemma one_item_session_ok : session_ok one_item_session.
Proof.
  split; [repeat constructor; eexists; reflexivity | apply empty_draft_ok].
Qed.

Lemma commit_cycles_witness :
  let filled := session_after MoreExamples.parse_hotel_x fresh in
  let taxi_item (name : string) (raw_content : string) : dict :=
    [ ("expense_name", PStr name);
      ("expense_type", PStr "Meals");
      ("cost_center", PStr "CC-1");
      ("merchant_name", PStr "Cafe");
      ("lodging_location", PStr "");
      ("check_in", PStr "2024-05-01");
      ("check_out", PStr "2024-05-01");
      ("zip_code", PStr "10001");
      ("estimated_amount", PStr "12.50");
      ("receipt_file", PStr raw_content) ] in
  dict_get "receipt_file" (draft_of day1 filled) = Some (PStr "Hotel X ... 250.00")
  /\ run_all [add_taxi; add_lunch; add_hotel] filled
     = mk_session
         (Some [ taxi_item "taxi" "Hotel X ... 250.00";
                 taxi_item "lunch" "";
                 taxi_item "hotel" "" ])
         (Some [ ("expense_name", PStr "");
                 ("expense_type", PStr "Hotel/Lodging");
                 ("cost_center", PStr "");
                 ("merchant_name", PStr "");
                 ("lodging_location", PStr "");
                 ("check_in", PDate (mkdate 2024 5 2));
                 ("check_out", PDate (mkdate 2024 5 2));
                 ("zip_code", PStr "");
                 ("estimated_amount", PFloat (QArith_base.Qmake 0 1));
                 ("receipt_file", PStr "") ]).
Proof.
  cbv zeta.
  assert (Hc : forall i, commit_only (pressing_add i)).
  { intros i. split; [reflexivity | left; reflexivity]. }
  assert (Hok : session_ok (session_after MoreExamples.parse_hotel_x fresh)).
  { split; [vm_compute; constructor|].
    split; [vm_compute; reflexivity|].
    exists "Hotel/Lodging". split; [vm_compute; reflexivity | left; reflexivity]. }
  split; [vm_compute; reflexivity|].
  exact (proj1 (proj2 (commit_cycles (session_after MoreExamples.parse_hotel_x fresh)
                         add_taxi [add_lunch; add_hotel]
                         Hok (Hc _) ltac:(repeat constructor; apply Hc)))).
Defined.

Lemma raw_content_hidden_from_views_witness :
  let s := run_all [MoreExamples.parse_hotel_x; add_taxi] fresh in
  reachable s
  /\ (forall e item,
        In e (log_of submit_now s) -> In item (shown_items e) ->
        dict_get "receipt_file" item = None)
  /\ exists shown messages payload pre post,
       log_of submit_now s = app shown [SendRequest messages]
       /\ List.nth_error messages 2 = Some (mk_message "system" payload)
       /\ payload = pre ++ "'receipt_file': 'Hotel X ... 250.00'" ++ post.
Proof.
  cbv zeta.
  assert (Hr : reachable (run_all [MoreExamples.parse_hotel_x; add_taxi] fresh)).
  { apply reachable_run. apply reachable_run. apply reachable_fresh. }
  destruct (raw_content_hidden_from_views submit_now _ Hr) as [Hviews Hsent].
  split; [exact Hr|]. split; [exact Hviews|].
  destruct (Hsent (or_introl eq_refl) eq_refl)
    as (shown & messages & Hlog & Hthird & Hraw).
  assert (Hin : In (new_item_of add_taxi (PStr "Hotel X ... 250.00"))
                  match line_items (session_after submit_now
                          (run_all [MoreExamples.parse_hotel_x; add_taxi] fresh)) with
                  | Some items => items
                  | None => []
                  end).
  { vm_compute. left. reflexivity. }
  destruct (Hraw _ Hin) as (raw & pre & post & Hget & Hocc).
  injection Hget as <-.
  exists shown, messages.
  eexists. exists pre, post.
  split; [exact Hlog|]. split; [exact Hthird | exact Hocc].
Defined.

Lemma submit_only_pressing (i : run_input) (pdf : pdf_source) :
  submit_only (pressing_submit i pdf).
Proof. split; [reflexivity | split; [reflexivity | left; reflexivity]]. Qed.

Lemma submit_leaves_session_witness :
  session_after submit_now one_item_session = one_item_session
  /\ log_of submit_now (session_after submit_now one_item_session)
     = log_of submit_now one_item_session.
Proof.
  pose proof (submit_leaves_session submit_now submit_now one_item_session
                _ _ one_item_session_ok eq_refl eq_refl
                (submit_only_pressing _ _) (submit_only_pressing _ _)) as Hw.
  destruct Hw as (_ & Hsame & Hlog1 & Hlog2).
  split; [exact Hsame|]. rewrite Hlog1, Hlog2. reflexivity.
Defined.

Lemma compliance_request_segments_witness :
  exists shown messages,
    log_of submit_now one_item_session = app shown [SendRequest messages]
    /\ length messages = 4.
Proof.
  destruct (compliance_request_segments submit_now one_item_session
              one_item_session_ok (or_introl eq_refl) eq_refl) as [shown Hlog].
  eexists shown, _. split; [exact Hlog | reflexivity].
Defined.

(** C3, as stated, fails: the request has four segments, not five; the
    instruction to suggest remedies and the serialised line items are one
    segment. *)
Lemma request_has_four_segments :
  exists messages,
    List.last (log_of submit_now one_item_session) (SendRequest [])
    = SendRequest messages
    /\ length messages = 4
    /\ length messages <> 5.
Proof.
  eexists. split; [vm_compute; reflexivity|].
  split; [reflexivity | discriminate].
Qed.

Lemma policy_text_or_error_witness :
  extract_text_from_pdf unreadable
  = "Error: no such file: TRAVEL PROCEDURES MANUAL 2024.pdf"
  /\ exists shown rest,
       log_of submit_now one_item_session
       = app shown
           [ SendRequest
               (mk_message "system"
                  ("Given to you is the travel manual or all the policies related to submitting expense: "
                   ++ "Error: no such file: TRAVEL PROCEDURES MANUAL 2024.pdf") :: rest) ].
Proof.
  exact (policy_text_or_error submit_now one_item_session
           one_item_session_ok (or_introl eq_refl) eq_refl).
Defined.

End SessionExamples.

(* ------------------------------------------------------------------ *)
(** ** The other fields of the record, and when the normaliser raises *)
(* ------------------------------------------------------------------ *)

Section RecordFields.
Context `{Builtins}.

(** What the blocks after the first two leave under a key they do not
    write. *)
Lemma parse_receipt_keeps (r : AnalyzeResult.t) (d : dict) (k : string) :
  parse_receipt r = Ok d ->
  k <> "logding_location" -> k <> "zip_code" ->
  k <> "check_in" -> k <> "check_out" ->
  dict_get k d
  = dict_get k
      (fill_estimated_amount (first_fields r)
         (fill_merchant_name (first_fields r)
            (dict_set "receipt_file_content" (AnalyzeResult.content r)
               parsed_data_defaults))).
Proof.
  intros Hp Hl Hz Hi Ho.
  apply parse_receipt_inv in Hp as (pd2 & pd3 & pd4 & Hinv).
  unfold first_fields.
  destruct (AnalyzeResult.documents r) as [|doc rest]; cbv zeta in Hinv.
  - subst d. reflexivity.
  - destruct Hinv as (-> & Hcr & Hzip & ->).
    rewrite fill_dates_get by assumption.
    rewrite (fill_zip_code_get _ _ _ k Hz Hzip).
    apply (fill_lodging_location_get _ _ _ k Hl Hcr).
Qed.

Lemma parse_receipt_raw_content (r : AnalyzeResult.t) (d : dict) :
  parse_receipt r = Ok d ->
  dict_get "receipt_file_content" d = Some (AnalyzeResult.content r).
Proof.
  intros Hp.
  rewrite (parse_receipt_keeps r d "receipt_file_content" Hp) by discriminate.
  rewrite fill_estimated_amount_get, fill_merchant_name_get by discriminate.
  reflexivity.
Qed.

(** The whole-document text is in every record the normaliser gives,
    whatever fields were recognised. *)
Theorem raw_content_always_carried (r : AnalyzeResult.t) (d : dict) :
  parse_receipt r = Ok d ->
  dict_get "receipt_file_content" d = Some (AnalyzeResult.content r).
Proof. apply parse_receipt_raw_content. Qed.

(** Merchant name and amount: the value of the field when the field is
    there and the value is not empty, else the default, the empty text
    and [0.0].  The amount is the raw content of the total field, not a
    number. *)
Theorem merchant_and_amount_resolution (r : AnalyzeResult.t) (d : dict) :
  parse_receipt r = Ok d ->
  dict_get "merchant_name" d
  = Some (match first_fields r !! "MerchantName" with
          | Some f => if truthy (DocumentField.value_string f)
                      then DocumentField.value_string f else PStr ""
          | None => PStr ""
          end)
  /\ dict_get "estimated_amount" d
     = Some (match first_fields r !! "Total" with
             | Some f => if truthy (DocumentField.content f)
                         then DocumentField.content f
                         else PFloat (QArith_base.Qmake 0 1)
             | None => PFloat (QArith_base.Qmake 0 1)
             end).
Proof.
  intros Hp. split.
  - rewrite (parse_receipt_keeps r d "merchant_name" Hp) by discriminate.
    rewrite fill_estimated_amount_get by discriminate.
    unfold fill_merchant_name. cbv zeta.
    destruct (first_fields r !! "MerchantName") as [f|]; [|reflexivity].
    destruct (truthy (DocumentField.value_string f)); reflexivity.
  - rewrite (parse_receipt_keeps r d "estimated_amount" Hp) by discriminate.
    unfold fill_estimated_amount. cbv zeta.
    destruct (first_fields r !! "Total") as [f|].
    + destruct (truthy (DocumentField.content f)).
      * rewrite dict_get_set. reflexivity.
      * rewrite fill_merchant_name_get by discriminate. reflexivity.
    + rewrite fill_merchant_name_get by discriminate. reflexivity.
Qed.

(** Zip code: when the normaliser gives a record, a merchant-address
    field that is there has an address object, and the zip code is its
    postal code when that is not empty, else the empty text. *)
Theorem zip_code_resolution (r : AnalyzeResult.t) (d : dict) :
  parse_receipt r = Ok d ->
  match first_fields r !! "MerchantAddress" with
  | Some f =>
      exists pc,
        DocumentField.value_address f = PAddress pc /\
        dict_get "zip_code" d = Some (if truthy pc then pc else PStr "")
  | None => dict_get "zip_code" d = Some (PStr "")
  end.
Proof.
  intros Hp. apply parse_receipt_inv in Hp as (pd2 & pd3 & pd4 & Hinv).
  unfold first_fields.
  destruct (AnalyzeResult.documents r) as [|doc rest]; cbv zeta in Hinv.
  - subst d. rewrite lookup_empty. reflexivity.
  - destruct Hinv as (-> & Hcr & Hzip & ->).
    set (fields := AnalyzedDocument.fields doc) in *.
    assert (Hpd3 : dict_get "zip_code" pd3 = Some (PStr "")).
    { rewrite (fill_lodging_location_get _ _ _ "zip_code" ltac:(discriminate) Hcr).
      rewrite fill_estimated_amount_get, fill_merchant_name_get by discriminate.
      reflexivity. }
    unfold fill_zip_code in Hzip. cbv zeta in Hzip.
    destruct (fields !! "MerchantAddress") as [f|].
    + apply bind_ok in Hzip as (pc & Hpc & Hzip).
      destruct (DocumentField.value_address f) as [| | | | |pc'] eqn:Hva;
        try discriminate.
      injection Hpc as ->. exists pc. split; [reflexivity|].
      rewrite fill_dates_get by discriminate.
      destruct (truthy pc); injection Hzip as <-.
      * rewrite dict_get_set. reflexivity.
      * exact Hpd3.
    + injection Hzip as <-. rewrite fill_dates_get by discriminate. exact Hpd3.
Qed.

(** When the normaliser raises and what: a [TypeError] when the region
    code and the address of the country/region field are both there and
    cannot be added; else an [AttributeError] when the merchant-address
    field has no address object; in every other case it gives a record. *)
Theorem parse_receipt_raises_exactly (r : AnalyzeResult.t) :
  match parse_receipt r with
  | Ok _ => lodging_fails r = false /\ zip_fails r = false
  | Raise e =>
      if lodging_fails r
      then e = TypeError "unsupported operand type(s) for +"
      else zip_fails r = true
           /\ e = AttributeError "object has no attribute 'postal_code'"
  end.
Proof.
  unfold parse_receipt, lodging_fails, zip_fails, first_fields.
  destruct (AnalyzeResult.documents r) as [|doc rest].
  - rewrite !lookup_empty. auto.
  - cbv zeta. set (fields := AnalyzedDocument.fields doc).
    set (pd2 := fill_estimated_amount _ _). clearbody pd2.
    assert (Hzip : forall pd3,
              match (parsed_data <- fill_zip_code fields pd3 ;;
                     Ok (fill_dates fields parsed_data)) with
              | Ok _ =>
                  match fields !! "MerchantAddress" with
                  | Some f => match DocumentField.value_address f with
                              | PAddress _ => false
                              | _ => true
                              end
                  | None => false
                  end = false
              | Raise e =>
                  match fields !! "MerchantAddress" with
                  | Some f => match DocumentField.value_address f with
                              | PAddress _ => false
                              | _ => true
                              end
                  | None => false
                  end = true
                  /\ e = AttributeError "object has no attribute 'postal_code'"
              end).
    { intros pd3. unfold fill_zip_code. cbv zeta.
      destruct (fields !! "MerchantAddress") as [g|]; simpl; [|reflexivity].
      destruct (DocumentField.value_address g) as [| | | | |pc]; simpl; auto.
      destruct (truthy pc); reflexivity. }
    unfold fill_lodging_location. cbv zeta.
    destruct (fields !! "CountryRegion") as [f|]; simpl.
    + destruct (truthy (DocumentField.value_country_region f)) eqn:Hr,
               (truthy (DocumentField.value_address f)) eqn:Ha; simpl.
      * destruct (py_add _ _) as [loc|e] eqn:Hadd; simpl.
        -- specialize (Hzip (dict_set "logding_location" loc pd2)).
           destruct (bind _ _); [split; [reflexivity | exact Hzip] | exact Hzip].
        -- destruct (DocumentField.value_country_region f),
                    (DocumentField.value_address f);
             simpl in Hadd; congruence.
      * specialize (Hzip (dict_set "logding_location"
                            (DocumentField.value_country_region f) pd2)).
        destruct (bind _ _); [split; [reflexivity | exact Hzip] | exact Hzip].
      * specialize (Hzip (dict_set "logding_location"
                            (DocumentField.value_address f) pd2)).
        destruct (bind _ _); [split; [reflexivity | exact Hzip] | exact Hzip].
      * specialize (Hzip pd2).
        destruct (bind _ _); [split; [reflexivity | exact Hzip] | exact Hzip].
    + specialize (Hzip pd2).
      destruct (bind _ _); [split; [reflexivity | exact Hzip] | exact Hzip].
Qed.

End RecordFields.

(* ------------------------------------------------------------------ *)
(** ** Filling the draft from a receipt *)
(* ------------------------------------------------------------------ *)

Section Populate.
Context `{Builtins}.

(** The parse block on a record: the draft it leaves and the rerun. *)
Lemma parse_and_fill_record (r : AnalyzeResult.t) (pr : dict)
    (items : list dict) (d : dict) (l : list effect) :
  draft_ok d -> parse_receipt r = Ok pr ->
  exists d',
    parse_and_fill r (mk_world (mk_session (Some items) (Some d)) l)
    = (Raise RerunException, mk_world (mk_session (Some items) (Some d')) l)
    /\ draft_ok d' /\ filled_from pr d d' /\ user_fields_kept d d'.
Proof.
  intros Hd Hp. unfold parse_and_fill. rewrite Hp.
  apply parse_receipt_keys, parsed_shape in Hp
    as (a1 & a2 & a3 & a4 & a5 & a6 & a7 & ->).
  destruct Hd as [Hkeys (t & Ht & Hin)].
  apply draft_shape in Hkeys
    as (v1 & v2 & v3 & v4 & v5 & v6 & v7 & v8 & v9 & v10 & ->).
  simpl in Ht. injection Ht as ->.
  destruct (truthy a4) eqn:H4, (truthy a5) eqn:H5;
    eexists; (split;
      [ unfold mbind', lift, draft_assign, read_draft, write_draft, get_session,
          put_session, ret, raise; simpl; rewrite ?H4, ?H5; simpl; reflexivity
      | split; [split; [reflexivity | exists t; split; [reflexivity | exact Hin]]|];
        split; unfold filled_from, user_fields_kept; simpl;
          rewrite ?H4, ?H5; repeat split ]).
Qed.

(** The parse block when the normaliser raises: nothing is written. *)
Lemma parse_and_fill_raise (r : AnalyzeResult.t) (e : exn) (w : world) :
  parse_receipt r = Raise e -> parse_and_fill r w = (Raise e, w).
Proof. intros Hp. unfold parse_and_fill, mbind', lift. rewrite Hp. reflexivity. Qed.

Lemma run_to_parse (inp : run_input) (s : session_state) (r : AnalyzeResult.t) :
  session_ok s -> parses inp r ->
  run inp s
  = parse_and_fill r
      (mk_world (mk_session (Some (items_of s)) (Some (draft_of (today inp) s)))
         (item_views 0 (items_of s))).
Proof.
  intros Hs [Hb Hf]. pose proof (draft_of_ok (today inp) s Hs) as Hd.
  unfold run, main.
  erewrite mbind_ok by apply init_session_run. simpl.
  erewrite mbind_ok by apply current_line_items_run.
  erewrite mbind_ok by (apply form_widgets_run; exact Hd).
  rewrite Hb, Hf.
  destruct (parse_and_fill r _) as [[u|e] w'] eqn:Hrun.
  - exfalso.
    destruct (parse_receipt r) as [pr|e] eqn:Hp.
    + destruct (parse_and_fill_record r pr (items_of s) _ (item_views 0 (items_of s)) Hd Hp)
        as (d' & Hrun' & _). rewrite Hrun' in Hrun. discriminate.
    + rewrite (parse_and_fill_raise r e _ Hp) in Hrun. discriminate.
  - erewrite mbind_raise by exact Hrun. reflexivity.
Qed.

(** The session and the log a parsing run leaves. *)
Lemma run_parse_draft (inp : run_input) (s : session_state) (r : AnalyzeResult.t) :
  session_ok s -> parses inp r ->
  exists d',
    session_after inp s = mk_session (Some (items_of s)) (Some d')
    /\ log_of inp s = item_views 0 (items_of s)
    /\ user_fields_kept (draft_of (today inp) s) d'
    /\ forall pr, parse_receipt r = Ok pr ->
         fst (run inp s) = Raise RerunException
         /\ filled_from pr (draft_of (today inp) s) d'.
Proof.
  intros Hs Hparse. unfold session_after, log_of.
  rewrite (run_to_parse inp s r Hs Hparse).
  destruct (parse_receipt r) as [pr|e] eqn:Hp.
  - destruct (parse_and_fill_record r pr (items_of s) _ (item_views 0 (items_of s))
                (draft_of_ok (today inp) s Hs) Hp) as (d' & -> & _ & Hfill & Hkept).
    exists d'. split; [reflexivity|]. split; [reflexivity|].
    split; [exact Hkept|].
    intros pr' [= <-]. split; [reflexivity | exact Hfill].
  - rewrite (parse_and_fill_raise r e _ Hp).
    eexists. split; [reflexivity|]. split; [reflexivity|].
    split; [repeat split|]. intros pr' Hpr'. discriminate.
Qed.

(** A receipt that is normalised overwrites the extracted entries of
    the draft with those of the record and the raw content; a date of the
    record is taken only when it is there, else the draft keeps the date it
    had.  The run ends with the rerun. *)
Theorem parse_fills_draft (inp : run_input) (s : session_state)
    (r : AnalyzeResult.t) (pr : dict) :
  session_ok s -> parses inp r -> parse_receipt r = Ok pr ->
  fst (run inp s) = Raise RerunException
  /\ exists d',
       draft_fields (session_after inp s) = Some d'
       /\ filled_from pr (draft_of (today inp) s) d'.
Proof.
  intros Hs Hparse Hp.
  destruct (run_parse_draft inp s r Hs Hparse) as (d' & Hafter & _ & _ & Hrec).
  destruct (Hrec pr Hp) as [Hend Hfill].
  split; [exact Hend|]. exists d'. rewrite Hafter. split; [reflexivity | exact Hfill].
Qed.

(** Parsing a receipt never touches the store nor the entries of the
    draft the user alone fills (expense name, expense type, cost centre),
    and shows nothing but the current items. *)
Theorem parse_keeps_store_and_user_fields (inp : run_input) (s : session_state)
    (r : AnalyzeResult.t) :
  session_ok s -> parses inp r ->
  line_items (session_after inp s) = Some (items_of s)
  /\ log_of inp s = item_views 0 (items_of s)
  /\ exists d',
       draft_fields (session_after inp s) = Some d'
       /\ user_fields_kept (draft_of (today inp) s) d'.
Proof.
  intros Hs Hparse.
  destruct (run_parse_draft inp s r Hs Hparse) as (d' & Hafter & Hlog & Hkept & _).
  rewrite Hafter. repeat split; [exact Hlog|].
  exists d'. split; [reflexivity | exact Hkept].
Qed.

(** When the normaliser raises, the run ends with that exception and
    the draft is as it was: nothing of the receipt is written. *)
Theorem parse_failure_writes_nothing (inp : run_input) (s : session_state)
    (r : AnalyzeResult.t) (e : exn) :
  session_ok s -> parses inp r -> parse_receipt r = Raise e ->
  run inp s
  = (Raise e,
     mk_world (mk_session (Some (items_of s)) (Some (draft_of (today inp) s)))
       (item_views 0 (items_of s))).
Proof.
  intros Hs Hparse Hp. rewrite (run_to_parse inp s r Hs Hparse).
  apply parse_and_fill_raise. exact Hp.
Qed.

(** How a run that does not submit the report ends, from any session
    the program reaches: with the rerun after a receipt that is
    normalised, with the exception of the normaliser after one that is
    not, and normally when no receipt is parsed.  No [KeyError],
    [ValueError] or missing session entry arises.  A run that parses
    ends in the parse block, whatever the other buttons answer. *)
Theorem run_ends (inp : run_input) (s : session_state) :
  reachable s ->
  (forall r,
     parse_button inp = true -> receipt_file inp = Some r ->
     fst (run inp s)
     = match parse_receipt r with
       | Ok _ => Raise RerunException
       | Raise e => Raise e
       end)
  /\ (no_parse inp -> submit_report inp = false -> fst (run inp s) = Ok tt).
Proof.
  intros Hr. pose proof (reachable_ok s Hr) as Hs. split.
  - intros r Hb Hf.
    rewrite (run_to_parse inp s r Hs (conj Hb Hf)).
    destruct (parse_receipt r) as [pr|e] eqn:Hp.
    + destruct (parse_and_fill_record r pr (items_of s) _ (item_views 0 (items_of s))
                  (draft_of_ok (today inp) s Hs) Hp) as (d' & -> & _). reflexivity.
    + rewrite (parse_and_fill_raise r e _ Hp). reflexivity.
  - intros Hnp _. rewrite run_no_parse by (auto using draft_of_ok). reflexivity.
Qed.

End Populate.

(* ------------------------------------------------------------------ *)
(** ** The store and the views over many runs *)
(* ------------------------------------------------------------------ *)

Section Store.
Context `{Builtins}.

(** The raw content of a parsed receipt is in the item committed next:
    parsing a receipt that normalises and then committing appends one
    item, the values of the form under their keys and the whole-document
    text of the receipt under [receipt_file]; the commit resets the
    draft, whose raw content is empty again. *)
Theorem raw_content_reaches_item (parse commit : run_input) (s : session_state)
    (r : AnalyzeResult.t) (pr : dict) :
  session_ok s -> parses parse r -> parse_receipt r = Ok pr ->
  commit_only commit ->
  let item : dict :=
    [ ("expense_name", expense_name commit);
      ("expense_type", expense_type commit);
      ("cost_center", cost_center commit);
      ("merchant_name", merchant_name commit);
      ("lodging_location", lodging_location commit);
      ("check_in", PStr (py_str (check_in commit)));
      ("check_out", PStr (py_str (check_out commit)));
      ("zip_code", zip_code commit);
      ("estimated_amount", estimated_amount commit);
      ("receipt_file", AnalyzeResult.content r) ] in
  line_items (run_all [parse; commit] s) = Some (app (items_of s) [item])
  /\ dict_get "receipt_file" item = Some (AnalyzeResult.content r)
  /\ draft_fields (run_all [parse; commit] s)
     = Some (empty_draft (today commit))
  /\ dict_get "receipt_file" (draft_of (today commit) (run_all [parse; commit] s))
     = Some (PStr "").
Proof.
  intros Hs Hparse Hp Hcommit. cbv zeta.
  change (run_all [parse; commit] s)
    with (session_after commit (session_after parse s)).
  pose proof (session_after_ok parse s Hs) as Hs1.
  destruct (run_parse_draft parse s r Hs Hparse) as (d' & Hafter & _ & _ & Hrec).
  destruct (Hrec pr Hp) as [_ Hfill].
  rewrite commit_once by assumption.
  unfold items_of, draft_of. rewrite Hafter. simpl.
  destruct Hfill as (_ & _ & _ & _ & Hraw & _).
  unfold receipt_of. rewrite Hraw, (parse_receipt_raw_content r pr Hp).
  repeat split; reflexivity.
Qed.

(** One run adds at most one item, at the end, and only when "Add This
    Line Item" was pressed. *)
Lemma run_appends (inp : run_input) (s : session_state) :
  session_ok s ->
  exists added,
    items_of (session_after inp s) = app (items_of s) added
    /\ length added <= 1
    /\ (submitted inp = false -> added = []).
Proof.
  intros Hs. unfold session_after.
  destruct (parse_button inp) eqn:Hb; [destruct (receipt_file inp) as [r|] eqn:Hf|].
  - destruct (run_parse inp s r Hs Hb Hf) as (e & d' & -> & _).
    exists []. simpl. unfold items_of at 1. simpl. rewrite app_nil_r. auto.
  - rewrite run_no_parse by (auto using draft_of_ok || (right; exact Hf)).
    simpl. unfold after_form. destruct (submitted inp).
    + eexists [_]. unfold items_of at 1. simpl. split; [reflexivity|].
      split; [lia | discriminate].
    + exists []. unfold items_of at 1. simpl. rewrite app_nil_r. auto.
  - rewrite run_no_parse by (auto using draft_of_ok || (left; exact Hb)).
    simpl. unfold after_form. destruct (submitted inp).
    + eexists [_]. unfold items_of at 1. simpl. split; [reflexivity|].
      split; [lia | discriminate].
    + exists []. unfold items_of at 1. simpl. rewrite app_nil_r. auto.
Qed.

(** The store is append-only: over any sequence of runs the items it
    held stay, in their places, and it grows by at most one item a run. *)
Theorem store_append_only (inps : list run_input) :
  forall s,
    session_ok s ->
    exists added,
      items_of (run_all inps s) = app (items_of s) added
      /\ length added <= length inps.
Proof.
  induction inps as [|inp inps IH]; intros s Hs.
  - exists []. simpl. rewrite app_nil_r. auto.
  - change (run_all (inp :: inps) s) with (run_all inps (session_after inp s)).
    destruct (run_appends inp s Hs) as (a1 & Ha1 & Hl1 & _).
    destruct (IH _ (session_after_ok inp s Hs)) as (a2 & Ha2 & Hl2).
    exists (app a1 a2). rewrite Ha2, Ha1, <- app_assoc. split; [reflexivity|].
    rewrite length_app. simpl. lia.
Qed.

(** A run in which no button is pressed ends normally, shows the
    current items and nothing else, and leaves an initialised session as
    it is; the dates of the draft are those of the day it was reset, not
    of the day of the run. *)
Theorem idle_run_changes_nothing (inp : run_input) (s : session_state)
    (items : list dict) (d : dict) :
  session_ok s -> line_items s = Some items -> draft_fields s = Some d ->
  idle inp ->
  run inp s = (Ok tt, mk_world s (item_views 0 items)).
Proof.
  intros Hs Hitems Hd (Hnp & Hadd & Hsub).
  rewrite run_no_parse by (auto using draft_of_ok).
  unfold after_form, submission, items_of, draft_of.
  rewrite Hadd, Hsub, Hitems, Hd. simpl. rewrite app_nil_r.
  destruct s; simpl in *; subst. reflexivity.
Qed.

Lemma nth_error_item_views (items : list dict) :
  forall idx i item,
    List.nth_error items i = Some item ->
    List.nth_error (item_views idx items) i
    = Some (ShowItem (idx + i) (dict_without "receipt_file" item)).
Proof.
  induction items as [|x rest IH]; intros idx i item Hi.
  - destruct i; discriminate.
  - destruct i as [|i]; simpl in *.
    + injection Hi as ->. rewrite Nat.add_0_r. reflexivity.
    + rewrite (IH (S idx) i item Hi). f_equal. f_equal. lia.
Qed.

(** The list of current items shows the items of the store in their
    order, the item at position [i] (from 0) as the [i]-th thing shown in
    the run, without its raw content. *)
Theorem list_view_in_store_order (inp : run_input) (s : session_state)
    (i : nat) (item : dict) :
  session_ok s ->
  List.nth_error (items_of s) i = Some item ->
  List.nth_error (log_of inp s) i
  = Some (ShowItem i (dict_without "receipt_file" item)).
Proof.
  intros Hs Hi. rewrite log_of_cases by exact Hs.
  rewrite nth_error_app1.
  - apply (nth_error_item_views _ 0 i item Hi).
  - apply nth_error_Some. rewrite (nth_error_item_views _ 0 i item Hi). discriminate.
Qed.

(** Everything a run shows is an item of the store with the raw content
    taken out and every other entry as it is in the store. *)
Theorem views_are_store_items (inp : run_input) (s : session_state)
    (e : effect) (view : dict) :
  session_ok s ->
  In e (log_of inp s) -> In view (shown_items e) ->
  exists item,
    In item (items_of (session_after inp s))
    /\ view = dict_without "receipt_file" item
    /\ forall k, k <> "receipt_file" -> dict_get k view = dict_get k item.
Proof.
  intros Hs He Hview. rewrite log_of_cases in He by exact Hs.
  destruct (run_appends inp s Hs) as (added & Hadded & _).
  apply in_app_or in He as [He|He].
  - apply in_item_views in He as (i & item & -> & Hitem).
    simpl in Hview. destruct Hview as [<-|[]].
    exists item. split; [rewrite Hadded; apply in_or_app; auto|].
    split; [reflexivity|]. intros k Hk. apply dict_get_without_other. exact Hk.
  - destruct (parse_button inp && _)%bool; [destruct He|].
    unfold submission in He. destruct (submit_report inp); [|destruct He].
    destruct He as [<-|[<-|[]]]; simpl in Hview; [|destruct Hview].
    apply in_map_iff in Hview as (item & <- & Hitem).
    exists item. split; [exact Hitem|]. split; [reflexivity|].
    intros k Hk. apply dict_get_without_other. exact Hk.
Qed.

(** What the form answers for expense name, expense type and cost
    centre is never written back to the draft: in every session the
    program reaches the draft holds their defaults. *)
Theorem user_fields_stay_default (s : session_state) (d : dict) :
  reachable s -> draft_fields s = Some d -> user_fields_default d.
Proof.
  intros Hr. revert d.
  induction Hr as [|inp s Hr IH]; intros d Hd; [discriminate|].
  pose proof (reachable_ok s Hr) as Hs.
  assert (Hbefore : user_fields_default (draft_of (today inp) s)).
  { unfold draft_of. destruct (draft_fields s) as [d0|]; simpl.
    - apply IH. reflexivity.
    - repeat split. }
  destruct (parse_button inp) eqn:Hb; [destruct (receipt_file inp) as [r|] eqn:Hf|].
  - destruct (run_parse_draft inp s r Hs (conj Hb Hf))
      as (d' & Hafter & _ & (Hk1 & Hk2 & Hk3) & _).
    rewrite Hafter in Hd. injection Hd as <-.
    destruct Hbefore as (H1 & H2 & H3).
    repeat split; congruence.
  - unfold session_after in Hd.
    rewrite run_no_parse in Hd by (auto using draft_of_ok || (right; exact Hf)).
    simpl in Hd. unfold after_form in Hd.
    destruct (submitted inp); injection Hd as <-; [repeat split | exact Hbefore].
  - unfold session_after in Hd.
    rewrite run_no_parse in Hd by (auto using draft_of_ok || (left; exact Hb)).
    simpl in Hd. unfold after_form in Hd.
    destruct (submitted inp); injection Hd as <-; [repeat split | exact Hbefore].
Qed.

(** A report without line items is submitted all the same: the final
    view is the empty list and the request is sent with the text "[]" for
    the line items. *)
Theorem empty_report_is_sent (inp : run_input) (s : session_state) :
  session_ok s -> items_of s = [] -> submit_only inp ->
  log_of inp s
  = [ ShowFinalJson [];
      SendRequest
        [ mk_message "system"
            ("Given to you is the travel manual or all the policies related to submitting expense: "
             ++ extract_text_from_pdf (policy_pdf inp));
          mk_message "system"
            "You need to act as Policy violation checker, we will provide you with the line items of the expense, based on that you need to check and get back to with possible policy violations";
          mk_message "system"
            "Along with policy violation you should get back to user with suggestions. Here are the line items: []";
          mk_message "system"
            "Always respond back in json format with keys line_item_no, policy_violations (value should be None if no policy violation is there), suggestion (if any policy violations are there)" ] ].
Proof.
  intros Hs Hempty (Hsub & Hadd & Hnp). unfold log_of.
  rewrite run_no_parse by (auto using draft_of_ok).
  unfold after_form, submission. rewrite Hadd, Hsub, Hempty. reflexivity.
Qed.

End Store.

(* ------------------------------------------------------------------ *)
(** ** [safe_date] and the login gate *)
(* ------------------------------------------------------------------ *)

Section Gate.
Context `{Builtins}.

(** [safe_date] always gives a date or a datetime, never [None] nor a
    raw text: where the value is no date and does not parse it gives the
    date of the day, and a text that parses gives the parsed date.  A
    date comes back as it is, and so does a datetime, with its time of
    day: the test for [date] holds for it, so the reduction to its date
    part is never reached.  On a value coerced by [to_date] the result
    is a date. *)
Theorem safe_date_gives_date (today : date) (v : pyval) :
  isinstance_date (safe_date today v) = true
  /\ (forall dt : datetime, safe_date today (PDateTime dt) = PDateTime dt)
  /\ (forall d : date, safe_date today (PDate d) = PDate d)
  /\ (forall (s : string) (dt : datetime),
        fromisoformat s = Some dt ->
        safe_date today (PStr s) = PDate (date_part dt))
  /\ (isinstance_datetime (safe_date today v) = true ->
      safe_date today v = v)
  /\ is_date (safe_date today (to_date v)) = true
  /\ (isinstance_date v = false ->
      (isinstance_str v = false \/ fromisoformat (py_str v) = None) ->
      safe_date today v = PDate today).
Proof.
  split; [|split; [|split; [|split; [|split; [|split]]]]].
  - unfold safe_date. destruct v; simpl; try reflexivity.
    destruct (fromisoformat s); reflexivity.
  - intros dt. reflexivity.
  - intros d. reflexivity.
  - intros s dt Hs. unfold safe_date. simpl. rewrite Hs. reflexivity.
  - unfold safe_date. destruct v; simpl; try discriminate; try reflexivity.
    destruct (fromisoformat s); discriminate.
  - unfold to_date. destruct (truthy v) eqn:Hv; simpl; [|reflexivity].
    destruct v; simpl in *; try discriminate; try reflexivity.
    + destruct (fromisoformat s) eqn:Hs; simpl; [reflexivity|].
      unfold safe_date. simpl. rewrite Hs. reflexivity.
    + destruct (fromisoformat _); reflexivity.
    + destruct (fromisoformat _); reflexivity.
  - intros Hnd Hfail. unfold safe_date.
    destruct v; simpl in *; try discriminate; try reflexivity.
    destruct Hfail as [Hf|Hf]; [discriminate|]. rewrite Hf. reflexivity.
Qed.

(** A run that starts without authentication never reaches [main]: it
    shows and sends nothing and leaves the store and the draft as they
    are, whatever is typed and pressed. *)
Theorem gate_blocks_main (secrets : credentials) (form : login_form)
    (inp : run_input) (a : app_state) :
  not_authenticated (authenticated a) = true ->
  let '(a', e, shown) := script secrets form inp a in
  app_session a' = app_session a /\ shown = [] /\ is_login_end e = true.
Proof.
  intros Hna. unfold script. rewrite Hna. unfold login.
  destruct (login_button form); [|auto].
  destruct (_ && _)%bool; auto.
Qed.

(** A run that starts without authentication ends authenticated exactly
    when the login button was pressed with the user name and the password
    both equal to the secret ones. *)
Theorem login_needs_both_credentials (secrets : credentials) (form : login_form)
    (inp : run_input) (a : app_state) :
  not_authenticated (authenticated a) = true ->
  authenticated (fst (fst (script secrets form inp a))) = Some true
  <-> login_button form = true
      /\ username form = secret_username secrets
      /\ password form = secret_password secrets.
Proof.
  intros Hna. unfold script. rewrite Hna. unfold login.
  assert (Hnot : authenticated a <> Some true).
  { intros Heq. rewrite Heq in Hna. discriminate. }
  destruct (login_button form); simpl.
  - destruct (String.eqb_spec (username form) (secret_username secrets)) as [Hu|Hu],
             (String.eqb_spec (password form) (secret_password secrets)) as [Hp|Hp];
      simpl; split; try tauto; intros Hx; try contradiction;
      destruct Hx as (_ & Hx1 & Hx2); contradiction.
  - split; [intros Hx; contradiction | intros (Hx & _); discriminate].
Qed.

(** There is no way back: once authenticated, every later run goes to
    [main] whatever the login form answers, and the session moves as
    [main] moves it. *)
Theorem authenticated_stays (secrets : credentials)
    (steps : list (login_form * run_input)) :
  forall a,
    authenticated a = Some true ->
    authenticated (script_all secrets steps a) = Some true
    /\ app_session (script_all secrets steps a)
       = run_all (List.map snd steps) (app_session a).
Proof.
  induction steps as [|[form inp] steps IH]; intros a Ha; [auto|].
  change (script_all secrets ((form, inp) :: steps) a)
    with (script_all secrets steps (fst (fst (script secrets form inp a)))).
  assert (Hstep : fst (fst (script secrets form inp a))
                  = mk_app (Some true) (session_after inp (app_session a))).
  { unfold script, session_after. rewrite Ha. simpl.
    destruct (run inp (app_session a)). reflexivity. }
  rewrite Hstep.
  destruct (IH (mk_app (Some true) (session_after inp (app_session a))) eq_refl)
    as [IH1 IH2].
  split; [exact IH1 | exact IH2].
Qed.

End Gate.

Section StaleDates.
Context `{Builtins}.

(** Two receipts parsed one after the other without a commit: the
    second overwrites merchant, amount, zip code, location and raw content,
    but when it has no check-in date the draft still holds the check-in
    date of the first. *)
Theorem dates_of_earlier_receipt_persist (first second : run_input)
    (s : session_state) (r1 r2 : AnalyzeResult.t) (pr1 pr2 : dict) :
  session_ok s ->
  parses first r1 -> parse_receipt r1 = Ok pr1 ->
  parses second r2 -> parse_receipt r2 = Ok pr2 ->
  true_value (dict_get "check_in" pr1) = true ->
  true_value (dict_get "check_in" pr2) = false ->
  exists d,
    draft_fields (run_all [first; second] s) = Some d
    /\ dict_get "check_in" d = dict_get "check_in" pr1
    /\ dict_get "merchant_name" d = dict_get "merchant_name" pr2
    /\ dict_get "receipt_file" d = Some (AnalyzeResult.content r2).
Proof.
  intros Hs Hp1 Hr1 Hp2 Hr2 Hin1 Hin2.
  change (run_all [first; second] s)
    with (session_after second (session_after first s)).
  pose proof (session_after_ok first s Hs) as Hs1.
  destruct (run_parse_draft first s r1 Hs Hp1) as (d1 & Hafter1 & _ & _ & Hrec1).
  destruct (Hrec1 pr1 Hr1) as [_ Hfill1].
  destruct (run_parse_draft second _ r2 Hs1 Hp2) as (d2 & Hafter2 & _ & _ & Hrec2).
  destruct (Hrec2 pr2 Hr2) as [_ Hfill2].
  exists d2. rewrite Hafter2. split; [reflexivity|].
  unfold draft_of in Hfill2. rewrite Hafter1 in Hfill2. simpl in Hfill2.
  destruct Hfill1 as (_ & _ & _ & _ & _ & Hci1 & _).
  destruct Hfill2 as (Hm2 & _ & _ & _ & Hraw2 & Hci2 & _).
  rewrite Hin1 in Hci1. rewrite Hin2 in Hci2.
  split; [congruence|]. split; [exact Hm2|].
  rewrite Hraw2. apply parse_receipt_raw_content. exact Hr2.
Qed.

End StaleDates.

Section Shapes.
Context `{Builtins}.

(** Every record the normaliser gives has the seven keys of the source,
    in its order, whatever fields were recognised: no read of a key of the
    record in [main] can fail. *)
Theorem record_has_seven_keys (r : AnalyzeResult.t) (d : dict) :
  parse_receipt r = Ok d ->
  dict_keys d
  = [ "merchant_name"; "estimated_amount"; "zip_code"; "check_in"; "check_out";
      "logding_location"; "receipt_file_content" ].
Proof. apply parse_receipt_keys. Qed.

(** In every session the program reaches the draft has the ten keys of
    the source, in its order: filling it from a receipt and resetting it
    never add, drop or move a key. *)
Theorem draft_keeps_its_keys (s : session_state) (d : dict) :
  reachable s -> draft_fields s = Some d ->
  dict_keys d
  = [ "expense_name"; "expense_type"; "cost_center"; "merchant_name";
      "lodging_location"; "check_in"; "check_out"; "zip_code";
      "estimated_amount"; "receipt_file" ].
Proof.
  intros Hr Hd. destruct (reachable_ok s Hr) as [_ Hok].
  rewrite Hd in Hok. exact (proj1 Hok).
Qed.

(** What one run adds to the store is an item built from the form. *)
Lemma run_appends_item (inp : run_input) (s : session_state) :
  session_ok s ->
  items_of (session_after inp s) = items_of s
  \/ exists receipt,
       items_of (session_after inp s)
       = app (items_of s) [new_item_of inp receipt].
Proof.
  intros Hs. unfold session_after.
  destruct (parse_button inp) eqn:Hb; [destruct (receipt_file inp) as [r|] eqn:Hf|].
  - destruct (run_parse inp s r Hs Hb Hf) as (e & d' & -> & _). left. reflexivity.
  - rewrite run_no_parse by (auto using draft_of_ok || (right; exact Hf)).
    simpl. unfold after_form. destruct (submitted inp); [right; eexists|left]; reflexivity.
  - rewrite run_no_parse by (auto using draft_of_ok || (left; exact Hb)).
    simpl. unfold after_form. destruct (submitted inp); [right; eexists|left]; reflexivity.
Qed.

(** Every item of the store, in every session the program reaches, has
    the ten keys of the source in its order and holds its two dates as
    texts. *)
Theorem items_hold_dates_as_texts (s : session_state) (item : dict) :
  reachable s -> In item (items_of s) ->
  dict_keys item = draft_keys
  /\ exists check_in check_out,
       dict_get "check_in" item = Some (PStr check_in)
       /\ dict_get "check_out" item = Some (PStr check_out).
Proof.
  intros Hr. revert item.
  induction Hr as [|inp s Hr IH]; intros item Hin; [destruct Hin|].
  destruct (run_appends_item inp s (reachable_ok s Hr)) as [Heq|[receipt Heq]];
    rewrite Heq in Hin.
  - apply IH. exact Hin.
  - apply in_app_or in Hin as [Hin|[<-|[]]]; [apply IH; exact Hin|].
    split; [reflexivity|]. eexists _, _. split; reflexivity.
Qed.

End Shapes.

(* ------------------------------------------------------------------ *)
(** ** The further statements on concrete inputs *)
(* ------------------------------------------------------------------ *)

Section MoreWitnesses.
Import Examples MoreExamples.
Existing Instance Reference.builtins.

Lemma hotel_x_parsed : parse_receipt hotel_x = Ok hotel_x_record.
Proof. vm_compute. reflexivity. Qed.

Lemma no_dates_parsed : parse_receipt no_dates = Ok no_dates_record.
Proof. vm_compute. reflexivity. Qed.

Lemma broken_raises :
  parse_receipt address_without_value
  = Raise (AttributeError "object has no attribute 'postal_code'").
Proof. vm_compute. reflexivity. Qed.

Lemma parses_parsing (i : run_input) (r : AnalyzeResult.t) : parses (parsing i r) r.
Proof. split; reflexivity. Qed.

Lemma commit_only_pressing (i : run_input) : commit_only (pressing_add i).
Proof. split; [reflexivity | left; reflexivity]. Qed.

Lemma raw_content_always_carried_witness :
  parse_receipt hotel_x = Ok hotel_x_record
  /\ dict_get "receipt_file_content" hotel_x_record
     = Some (PStr "Hotel X ... 250.00").
Proof.
  split; [exact hotel_x_parsed|].
  exact (raw_content_always_carried hotel_x hotel_x_record hotel_x_parsed).
Defined.

Lemma merchant_and_amount_resolution_witness :
  dict_get "merchant_name" hotel_x_record = Some (PStr "Hotel X")
  /\ dict_get "estimated_amount" hotel_x_record = Some (PStr "250.00").
Proof.
  exact (merchant_and_amount_resolution hotel_x hotel_x_record hotel_x_parsed).
Defined.

Lemma zip_code_resolution_witness :
  exists pc,
    PAddress (PStr "10001") = PAddress pc
    /\ dict_get "zip_code" hotel_x_record = Some (if truthy pc then pc else PStr "").
Proof.
  exact (zip_code_resolution hotel_x hotel_x_record hotel_x_parsed).
Defined.

Lemma parse_fills_draft_witness :
  fst (run parse_hotel_x one_item_session) = Raise RerunException
  /\ exists d',
       draft_fields (session_after parse_hotel_x one_item_session) = Some d'
       /\ filled_from hotel_x_record (empty_draft day1) d'.
Proof.
  exact (parse_fills_draft parse_hotel_x one_item_session hotel_x hotel_x_record
           one_item_session_ok (parses_parsing _ _) hotel_x_parsed).
Defined.

Lemma parse_keeps_store_and_user_fields_witness :
  line_items (session_after parse_hotel_x one_item_session)
  = line_items one_item_session.
Proof.
  exact (proj1 (parse_keeps_store_and_user_fields parse_hotel_x one_item_session
                  hotel_x one_item_session_ok (parses_parsing _ _))).
Defined.

Lemma parse_failure_writes_nothing_witness :
  session_after parse_broken one_item_session = one_item_session.
Proof.
  unfold session_after.
  rewrite (parse_failure_writes_nothing parse_broken one_item_session
             address_without_value _ one_item_session_ok (parses_parsing _ _)
             broken_raises).
  reflexivity.
Defined.

Lemma run_ends_witness :
  reachable (session_after add_taxi fresh)
  /\ fst (run parse_broken (session_after add_taxi fresh))
     = Raise (AttributeError "object has no attribute 'postal_code'")
  /\ fst (run parse_hotel_x (session_after add_taxi fresh)) = Raise RerunException
  /\ fst (run looking (session_after add_taxi fresh)) = Ok tt.
Proof.
  assert (Hr : reachable (session_after add_taxi fresh)).
  { apply reachable_run. apply reachable_fresh. }
  split; [exact Hr|]. split; [|split].
  - exact (proj1 (run_ends parse_broken _ Hr) _ eq_refl eq_refl).
  - exact (proj1 (run_ends parse_hotel_x _ Hr) _ eq_refl eq_refl).
  - exact (proj2 (run_ends looking _ Hr) (or_introl eq_refl) eq_refl).
Defined.

Lemma raw_content_reaches_item_witness :
  line_items (run_all [parse_hotel_x; add_taxi] fresh)
  = Some [ [ ("expense_name", PStr "taxi");
             ("expense_type", PStr "Meals");
             ("cost_center", PStr "CC-1");
             ("merchant_name", PStr "Cafe");
             ("lodging_location", PStr "");
             ("check_in", PStr "2024-05-01");
             ("check_out", PStr "2024-05-01");
             ("zip_code", PStr "10001");
             ("estimated_amount", PStr "12.50");
             ("receipt_file", PStr "Hotel X ... 250.00") ] ]
  /\ dict_get "receipt_file" (draft_of day1 (run_all [parse_hotel_x; add_taxi] fresh))
     = Some (PStr "").
Proof.
  pose proof (raw_content_reaches_item parse_hotel_x add_taxi fresh hotel_x
                hotel_x_record fresh_ok (parses_parsing _ _) hotel_x_parsed
                (commit_only_pressing _)) as Hw.
  cbv zeta in Hw. destruct Hw as (Hitems & _ & _ & Hdraft).
  split; [exact Hitems | exact Hdraft].
Defined.

Lemma store_append_only_witness :
  exists added,
    items_of (run_all [add_lunch; parse_hotel_x; submit_now; add_hotel] one_item_session)
    = app (items_of one_item_session) added
    /\ length added <= 4.
Proof.
  exact (store_append_only [add_lunch; parse_hotel_x; submit_now; add_hotel]
           one_item_session one_item_session_ok).
Defined.

Lemma idle_looking : idle looking.
Proof. split; [right; reflexivity | split; reflexivity]. Qed.

Lemma idle_run_changes_nothing_witness :
  session_after looking one_item_session = one_item_session.
Proof.
  unfold session_after.
  rewrite (idle_run_changes_nothing looking one_item_session _ _
             one_item_session_ok eq_refl eq_refl idle_looking).
  reflexivity.
Defined.

Lemma list_view_in_store_order_witness :
  List.nth_error (log_of submit_now one_item_session) 0
  = Some (ShowItem 0
            (dict_without "receipt_file"
               (new_item_of (form "taxi" day1) (PStr "raw receipt")))).
Proof.
  exact (list_view_in_store_order submit_now one_item_session 0 _
           one_item_session_ok eq_refl).
Defined.

Lemma views_are_store_items_witness :
  exists item,
    In item (items_of (session_after submit_now one_item_session))
    /\ dict_without "receipt_file"
         (new_item_of (form "taxi" day1) (PStr "raw receipt"))
       = dict_without "receipt_file" item
    /\ forall k, k <> "receipt_file" ->
         dict_get k (dict_without "receipt_file"
                       (new_item_of (form "taxi" day1) (PStr "raw receipt")))
         = dict_get k item.
Proof.
  apply (views_are_store_items submit_now one_item_session
           (ShowItem 0 (dict_without "receipt_file"
                          (new_item_of (form "taxi" day1) (PStr "raw receipt"))))
           _ one_item_session_ok).
  - vm_compute. left. reflexivity.
  - left. reflexivity.
Defined.

Lemma user_fields_stay_default_witness :
  exists d,
    draft_fields (session_after parse_hotel_x (session_after add_taxi fresh)) = Some d
    /\ user_fields_default d.
Proof.
  assert (Hr : reachable (session_after parse_hotel_x (session_after add_taxi fresh))).
  { do 2 apply reachable_run. apply reachable_fresh. }
  eexists. split; [vm_compute; reflexivity|].
  apply (user_fields_stay_default _ _ Hr). vm_compute. reflexivity.
Defined.

Lemma empty_report_is_sent_witness :
  List.nth_error (log_of submit_now fresh) 0 = Some (ShowFinalJson [])
  /\ length (log_of submit_now fresh) = 2.
Proof.
  rewrite (empty_report_is_sent submit_now fresh fresh_ok eq_refl
             (submit_only_pressing _ _)).
  split; reflexivity.
Defined.

Lemma dates_of_earlier_receipt_persist_witness :
  exists d,
    draft_fields (run_all [parse_hotel_x; parse_no_dates] fresh) = Some d
    /\ dict_get "check_in" d = Some (PDate (mkdate 2024 5 1))
    /\ dict_get "merchant_name" d = Some (PStr "Cafe Y")
    /\ dict_get "receipt_file" d = Some (PStr "Cafe Y ... 9.00").
Proof.
  exact (dates_of_earlier_receipt_persist parse_hotel_x parse_no_dates fresh
           hotel_x no_dates hotel_x_record no_dates_record fresh_ok
           (parses_parsing _ _) hotel_x_parsed (parses_parsing _ _) no_dates_parsed
           eq_refl eq_refl).
Defined.

Lemma gate_blocks_main_witness :
  app_session (fst (fst (script secrets bad_login submit_now logged_out)))
  = one_item_session
  /\ snd (script secrets bad_login submit_now logged_out) = [].
Proof.
  pose proof (gate_blocks_main secrets bad_login submit_now logged_out eq_refl) as Hw.
  destruct (script secrets bad_login submit_now logged_out) as [[a' e] shown].
  destruct Hw as (Hs & Hl & _). split; [exact Hs | exact Hl].
Defined.

Lemma login_needs_both_credentials_witness :
  authenticated (fst (fst (script secrets good_login submit_now logged_out)))
  = Some true
  /\ authenticated (fst (fst (script secrets bad_login submit_now logged_out)))
     <> Some true.
Proof.
  split.
  - apply (login_needs_both_credentials secrets good_login submit_now logged_out eq_refl).
    repeat split.
  - intros Hx.
    apply (login_needs_both_credentials secrets bad_login submit_now logged_out eq_refl)
      in Hx as (_ & _ & Hp).
    discriminate.
Defined.

Lemma authenticated_stays_witness :
  authenticated (script_all secrets [(bad_login, add_lunch); (good_login, submit_now)]
                   logged_in) = Some true
  /\ app_session (script_all secrets [(bad_login, add_lunch); (good_login, submit_now)]
                    logged_in)
     = run_all [add_lunch; submit_now] one_item_session.
Proof.
  exact (authenticated_stays secrets [(bad_login, add_lunch); (good_login, submit_now)]
           logged_in eq_refl).
Defined.

Lemma record_has_seven_keys_witness :
  dict_keys hotel_x_record
  = [ "merchant_name"; "estimated_amount"; "zip_code"; "check_in"; "check_out";
      "logding_location"; "receipt_file_content" ].
Proof. exact (record_has_seven_keys hotel_x hotel_x_record hotel_x_parsed). Defined.

Lemma draft_keeps_its_keys_witness :
  exists d,
    draft_fields (session_after parse_hotel_x (session_after add_taxi fresh)) = Some d
    /\ dict_keys d = draft_keys.
Proof.
  assert (Hr : reachable (session_after parse_hotel_x (session_after add_taxi fresh))).
  { do 2 apply reachable_run. apply reachable_fresh. }
  eexists. split; [vm_compute; reflexivity|].
  apply (draft_keeps_its_keys _ _ Hr). vm_compute. reflexivity.
Defined.

Lemma items_hold_dates_as_texts_witness :
  dict_keys (new_item_of add_taxi (PStr "")) = draft_keys
  /\ exists check_in check_out,
       dict_get "check_in" (new_item_of add_taxi (PStr "")) = Some (PStr check_in)
       /\ dict_get "check_out" (new_item_of add_taxi (PStr "")) = Some (PStr check_out).
Proof.
  assert (Hr : reachable (session_after add_taxi fresh)).
  { apply reachable_run. apply reachable_fresh. }
  apply (items_hold_dates_as_texts _ _ Hr). vm_compute. left. reflexivity.
Defined.

End MoreWitnesses.
